(** * video_utils: frame extraction over an external decoder

    A shallow embedding of [src/video_utils.py].  The module is glue code
    around three external components: the [ffmpeg]/[ffprobe] executables
    (through the ffmpeg-python binding), NumPy ([frombuffer], [reshape],
    [random]) and the Python runtime ([re], [int], [float], [str]).  The
    external components are modelled by what the module observes of them:

    - the decoder is an oracle from the command line it is given to the
      bytes it writes on stdout and stderr and its exit status;
    - the parts of the Python runtime whose exact behaviour is immaterial
      (float parsing and printing, the Unicode digit table, the Mersenne
      Twister) are fields of a [PyRuntime] record;
    - [re] is a small backtracking matcher with Python's leftmost, greedy
      semantics, [ndarray.reshape] follows NumPy's rules, including the
      inferred [-1] dimension.

    Python exceptions are values of [exn]; a computation is a function from
    a state to an outcome and a new state, so that a mutation made before
    an exception is raised stays visible afterwards, as in Python. *)

From Stdlib Require Import ZArith List Bool Lia.
From Stdlib Require Import Strings.Byte Strings.Ascii Strings.String.
From Stdlib Require Import Floats.SpecFloat.
From stdpp Require Import base option list gmap strings pretty.

Local Open Scope string_scope.
Local Open Scope Z_scope.

(** ** Python values shared by the whole module *)

(** [bytes] objects. *)
Abbreviation bytes := (list byte).

(** [str] objects, as sequences of Unicode code points. *)
Abbreviation text := (list N).

Definition bytes_of_string (s : string) : bytes := list_byte_of_string s.

Definition text_of_string (s : string) : text :=
  map Byte.to_N (list_byte_of_string s).

(** The exception classes the module can meet. *)
Inductive exn : Type :=
| ValueError
| TypeError
| KeyError
| IndexError
| AttributeError
| NameError
| UnicodeDecodeError
| FfmpegError.

(** [except ValueError] also catches its subclass [UnicodeDecodeError]. *)
Definition is_ValueError (e : exn) : bool :=
  match e with
  | ValueError | UnicodeDecodeError => true
  | _ => false
  end.

(** The outcome of an expression: an exception or a value. *)
Abbreviation result A := (sum exn A).

Definition raise {A} (e : exn) : result A := inl e.
Definition ret {A} (a : A) : result A := inr a.

Definition rbind {A B} (r : result A) (k : A -> result B) : result B :=
  match r with
  | inl e => inl e
  | inr a => k a
  end.

Definition of_option {A} (e : exn) (o : option A) : result A :=
  match o with
  | Some a => inr a
  | None => inl e
  end.

(** ** The [re] module

    A pattern is a sequence of items over an alphabet [A]: one character
    of a class, a greedy star over a class, or the opening or closing
    parenthesis of a group.  [x+] is [x] followed by [x*]. *)

Module Re.
Section Matcher.
Context {A : Type}.

Inductive item : Type :=
| One (p : A -> bool)
| Star (p : A -> bool)
| Mark.

Definition pattern := list item.

Definition Plus (p : A -> bool) : pattern := [One p; Star p].

(** [match_here re s pos] matches [re] against a prefix of [s], which
  starts at offset [pos] of the match.  The answer is the offset at
  which the match ends and the offsets of the parentheses crossed, in
  pattern order.  A star first tries to take one more character and
  gives it back when the rest of the pattern fails: the first answer
  found is the one Python's backtracking matcher returns. *)
Fixpoint match_here (re : pattern) : list A -> nat -> option (nat * list nat) :=
match re with
| [] => fun _ pos => Some (pos, [])
| One p :: re' =>
    fun s pos =>
      match s with
      | c :: s' => if p c then match_here re' s' (S pos) else None
      | [] => None
      end
| Star p :: re' =>
    fix star (s : list A) (pos : nat) {struct s} : option (nat * list nat) :=
      match s with
      | c :: s' =>
          if p c then
            match star s' (S pos) with
            | Some r => Some r
            | None => match_here re' s pos
            end
          else match_here re' s pos
      | [] => match_here re' [] pos
      end
| Mark :: re' =>
    fun s pos =>
      match match_here re' s pos with
      | Some (e, ms) => Some (e, pos :: ms)
      | None => None
      end
end.

Definition slice (s : list A) (i j : nat) : list A :=
firstn (j - i) (skipn i s).

(** Consecutive pairs of parenthesis offsets are the groups. *)
Fixpoint groups_of (s : list A) (ms : list nat) : list (list A) :=
match ms with
| i :: j :: ms' => slice s i j :: groups_of s ms'
| _ => []
end.

(** A match object: [group()] and [groups()]. *)
Record match_obj : Type := MatchObj {
group0 : list A;
groups : list (list A)
}.

Definition match_at (re : pattern) (s : list A) : option match_obj :=
match match_here re s 0 with
| Some (e, ms) => Some (MatchObj (firstn e s) (groups_of s ms))
| None => None
end.

(** [re.search]: the match at the leftmost position that has one. *)
Fixpoint search (re : pattern) (s : list A) : option match_obj :=
match match_at re s with
| Some m => Some m
| None =>
    match s with
    | [] => None
    | _ :: s' => search re s'
    end
end.

(** [re.finditer]: the leftmost match, then the leftmost match that
  starts at or after its end, and so on.  [skip] counts the
  characters of the current match still to be passed over.  (After an
  empty match the scan moves on by one character; no pattern of this
  module matches the empty string.) *)
Fixpoint finditer_from (re : pattern) (skip : nat) (s : list A) : list match_obj :=
match s with
| [] =>
    match skip, match_at re [] with
    | O, Some m => [m]
    | _, _ => []
    end
| _ :: s' =>
    match skip with
    | S k => finditer_from re k s'
    | O =>
        match match_at re s with
        | Some m => m :: finditer_from re (Nat.pred (length (group0 m))) s'
        | None => finditer_from re 0 s'
        end
    end
end.

Definition finditer (re : pattern) (s : list A) : list match_obj :=
finditer_from re 0 s.
End Matcher.
Arguments item : clear implicits.
Arguments pattern : clear implicits.
Arguments match_obj : clear implicits.
End Re.

(** ** The Python runtime and NumPy's random generator

    What the module needs of [float], [int], [str] and [numpy.random].
    [None] stands for the [ValueError] the conversion raises. *)
Record PyRuntime : Type := {
  float : Type;
  (** [float(s)] for a [str] and for a [bytes] argument, [float(n)]. *)
  float_of_text : text -> option float;
  float_of_bytes : bytes -> option float;
  float_of_int : Z -> float;
  (** [str(x)] *)
  str_of_float : float -> string;
  (** [x * y] *)
  fmul : float -> float -> float;
  (** [int(s)] for a [str] argument. *)
  int_of_text : text -> option Z;
  (** The value of a code point of category Nd, which is what [\d]
      matches in a [str] pattern. *)
  unicode_digit : N -> option Z;
  (** The state of the global generator, [numpy.random.seed] for a seed
      in range and [numpy.random.random]. *)
  rng : Type;
  mt_seed : Z -> rng;
  mt_random : rng -> float * rng
}.

(** ** [bytes.decode("utf-8")] *)

Definition utf8_cont (b : N) : bool := ((128 <=? b) && (b <=? 191))%N.

Definition utf8_second3 (b0 b1 : N) : bool :=
  (if b0 =? 224 then (160 <=? b1) && (b1 <=? 191)
   else if b0 =? 237 then (128 <=? b1) && (b1 <=? 159)
   else utf8_cont b1)%N.

Definition utf8_second4 (b0 b1 : N) : bool :=
  (if b0 =? 240 then (144 <=? b1) && (b1 <=? 191)
   else if b0 =? 244 then (128 <=? b1) && (b1 <=? 143)
   else utf8_cont b1)%N.

(** The strict decoder: shortest forms only, no surrogates, nothing above
    U+10FFFF.  [None] is [UnicodeDecodeError]. *)
Fixpoint utf8_decode (bs : list N) : option text :=
  match bs with
  | [] => Some []
  | b0 :: r0 =>
      if (b0 <? 128)%N then
        option_map (cons b0) (utf8_decode r0)
      else if ((194 <=? b0) && (b0 <=? 223))%N then
        match r0 with
        | b1 :: r1 =>
            if utf8_cont b1 then
              option_map (cons ((b0 - 192) * 64 + (b1 - 128))%N) (utf8_decode r1)
            else None
        | _ => None
        end
      else if ((224 <=? b0) && (b0 <=? 239))%N then
        match r0 with
        | b1 :: b2 :: r2 =>
            if utf8_second3 b0 b1 && utf8_cont b2 then
              option_map
                (cons ((b0 - 224) * 4096 + (b1 - 128) * 64 + (b2 - 128))%N)
                (utf8_decode r2)
            else None
        | _ => None
        end
      else if ((240 <=? b0) && (b0 <=? 244))%N then
        match r0 with
        | b1 :: b2 :: b3 :: r3 =>
            if utf8_second4 b0 b1 && utf8_cont b2 && utf8_cont b3 then
              option_map
                (cons ((b0 - 240) * 262144 + (b1 - 128) * 4096
                       + (b2 - 128) * 64 + (b3 - 128))%N)
                (utf8_decode r3)
            else None
        | _ => None
        end
      else None
  end.

Definition decode_utf8 (b : bytes) : result text :=
  of_option UnicodeDecodeError (utf8_decode (map Byte.to_N b)).

(** ** NumPy arrays of [uint8] *)

Record ndarray : Type := NdArray {
  shape : list Z;
  data : bytes
}.

(** [np.frombuffer(b, np.uint8)] *)
Definition frombuffer (b : bytes) : ndarray := NdArray [Z.of_nat (length b)] b.

(** [a.size] *)
Definition size (a : ndarray) : Z := Z.of_nat (length (data a)).

Definition prodZ (l : list Z) : Z := fold_right Z.mul 1 l.

Definition is_unknown (d : Z) : bool := d =? -1.

(** [a.reshape(newshape)].  One dimension may be [-1]: it is inferred from
    the size of the array and the other dimensions.  Every refusal is a
    [ValueError]: a dimension below [-1], two unknown dimensions, an
    unknown dimension that has no integral solution, or a shape whose
    size is not the size of the array. *)
Definition reshape (a : ndarray) (newshape : list Z) : result ndarray :=
  if existsb (fun d => d <? -1) newshape then raise ValueError
  else
    match List.filter is_unknown newshape with
    | [] =>
        if prodZ newshape =? size a
        then ret (NdArray newshape (data a))
        else raise ValueError
    | [_] =>
        let known := prodZ (List.filter (fun d => negb (is_unknown d)) newshape) in
        if known =? 0 then raise ValueError
        else if size a mod known =? 0 then
          ret (NdArray
                 (map (fun d => if is_unknown d then size a / known else d) newshape)
                 (data a))
        else raise ValueError
    | _ => raise ValueError
    end.

(** ** State and exceptions

    [M S A] is a computation over a state [S] that returns an [A] or
    raises.  The state is returned in both cases. *)
Definition M (S A : Type) : Type := S -> result A * S.

Definition mret {S A} (a : A) : M S A := fun s => (ret a, s).

Definition mraise {S A} (e : exn) : M S A := fun s => (raise e, s).

Definition mbind {S A B} (c : M S A) (k : A -> M S B) : M S B :=
  fun s =>
    match c s with
    | (inl e, s') => (inl e, s')
    | (inr a, s') => k a s'
    end.

Definition lift {S A} (r : result A) : M S A := fun s => (r, s).

Declare Scope py_scope.
Delimit Scope py_scope with py.
Notation "x <- c ;; k" := (mbind c (fun x => k))
  (at level 90, c at next level, right associativity) : py_scope.
Notation "c ;;; k" := (mbind c (fun _ => k))
  (at level 90, right associativity) : py_scope.

(** ** The ffmpeg-python binding *)

(** The value of a keyword argument. *)
Inductive arg : Type :=
| AStr (s : string)
| AInt (z : Z)
| ANone.

(** [ffmpeg.input(file, **in).output(target, **out)] *)
Record ffmpeg_cmd : Type := FfmpegCmd {
  input_file : string;
  input_kwargs : list (string * arg);
  output_file : string;
  output_kwargs : list (string * arg)
}.

(** What a decoder process does: the bytes it writes on its two streams
    and its exit status. *)
Record process : Type := Process {
  stdout : bytes;
  stderr : bytes;
  returncode : Z
}.

(** The external calls, as the operating system sees them: a probe of a
    file, or a decoder run with the streams that are piped back. *)
Inductive call : Type :=
| Probe (file : string)
| Run (cmd : ffmpeg_cmd) (pipe_stdout pipe_stderr : bool).

(** JSON documents, as [json.loads] returns them. *)
#[warnings="-register-all"]
Inductive json : Type :=
| JInt (z : Z)
| JStr (t : text)
| JArr (l : list json)
| JObj (m : gmap string json).

Section VideoUtils.
Variable RT : PyRuntime.

(** The decoder and the prober.  A probe that fails raises [ffmpeg.Error]. *)
Variable ffmpeg_exec : ffmpeg_cmd -> process.
Variable ffmpeg_probe : string -> option json.

(** The state outside the objects of the module: the external calls made
    so far, oldest first, and NumPy's global generator. *)
Record World : Type := MkWorld {
  calls : list call;
  np_state : rng RT
}.

Definition log (c : call) : M World unit :=
  fun w => (ret tt, MkWorld (calls w ++ [c]) (np_state w)).

Definition piped (flag : bool) (b : bytes) : option bytes :=
  if flag then Some b else None.

(** [stream.run(capture_stdout=.., capture_stderr=..)]: the pair
    [(out, err)], each [None] unless captured; [ffmpeg.Error] when the
    process exits with a status other than zero. *)
Definition run (cmd : ffmpeg_cmd) (capture_stdout capture_stderr : bool)
  : M World (option bytes * option bytes) :=
  (log (Run cmd capture_stdout capture_stderr) ;;;
   let p := ffmpeg_exec cmd in
   if returncode p =? 0
   then mret (piped capture_stdout (stdout p), piped capture_stderr (stderr p))
   else mraise FfmpegError)%py.

(** [ffmpeg.probe(file)] *)
Definition probe (file : string) : M World json :=
  (log (Probe file) ;;;
   lift (of_option FfmpegError (ffmpeg_probe file)))%py.

(** A [bytes] method or a buffer is asked of [out] or [err]: [None] has
    neither. *)
Definition as_buffer (o : option bytes) : result bytes := of_option TypeError o.
Definition as_bytes (o : option bytes) : result bytes := of_option AttributeError o.

(** *** Character classes *)

Definition lit {A} (eqb : A -> A -> bool) (l : list A) : Re.pattern A :=
  map (fun c => Re.One (eqb c)) l.

(** In a [str] pattern [\d] is any decimal digit of Unicode and [.] any
    character but the line feed. *)
Definition str_digit (c : N) : bool := bool_decide (is_Some (unicode_digit RT c)).
Definition str_dot (c : N) : bool := negb (c =? 10)%N.
Definition str_lit (s : string) : Re.pattern N := lit N.eqb (text_of_string s).

(** In a [bytes] pattern [\d] is an ASCII digit. *)
Definition byte_digit (b : byte) : bool :=
  ((48 <=? Byte.to_N b) && (Byte.to_N b <=? 57))%N.
Definition byte_is (n : N) (b : byte) : bool := (Byte.to_N b =? n)%N.
Definition bytes_lit (s : string) : Re.pattern byte :=
  lit Byte.eqb (bytes_of_string s).

(** The pattern of [get_frame]: the word Video and a colon, any
    characters, a comma and a space, then two groups of digits, each
    possibly empty, with an x between them and a comma after them. *)
Definition video_re : Re.pattern N :=
  (str_lit "Video:" ++ [Re.Star str_dot] ++ str_lit ", "
     ++ [Re.Mark; Re.Star str_digit; Re.Mark] ++ str_lit "x"
     ++ [Re.Mark; Re.Star str_digit; Re.Mark] ++ str_lit ",")%list.

(** The pattern of the module-level functions: pts_time and a colon,
    digits, any one character (the dot is not escaped), digits. *)
Definition pts_time_re : Re.pattern N :=
  (str_lit "pts_time:"
     ++ [Re.Star str_digit; Re.One str_dot; Re.Star str_digit])%list.

(** The [bytes] pattern of the [CatVideo] methods: pts_time and a
    colon, a group of one or more digits or dots, one space. *)
Definition pts_time_bytes_re : Re.pattern byte :=
  (bytes_lit "pts_time:"
     ++ [Re.Mark] ++ Re.Plus (fun b => byte_digit b || byte_is 46 b) ++ [Re.Mark]
     ++ bytes_lit " ")%list.

(** *** [get_frame] *)

Definition get_frame_cmd (file : string) (time : float RT) : ffmpeg_cmd :=
  FfmpegCmd file [("ss", AStr (str_of_float RT time)); ("t", AInt 0)]
            "pipe:" [("format", AStr "rawvideo"); ("pix_fmt", AStr "rgb24");
                     ("vframes", AInt 1)].

(** [(int(val) for val in re.search(...).groups())], unpacked into
    [width, height]. *)
Definition parse_resolution (err : option bytes) : result (Z * Z) :=
  rbind (as_bytes err) (fun e =>
  rbind (decode_utf8 e) (fun t =>
  rbind (of_option AttributeError (Re.search video_re t)) (fun m =>
  match Re.groups m with
  | [gw; gh] =>
      rbind (of_option ValueError (int_of_text RT gw)) (fun w =>
      rbind (of_option ValueError (int_of_text RT gh)) (fun h =>
      ret (w, h)))
  | _ => raise ValueError
  end))).

(** The [width, height] in force after the [if]: the arguments when
    both are given, the parsed pair otherwise. *)
Definition effective_size (height width : option Z) (err : option bytes)
  : result (Z * Z) :=
  match height, width with
  | Some h, Some w => ret (w, h)
  | _, _ => parse_resolution err
  end.

Definition get_frame (file : string) (time : float RT)
           (height width : option Z) : M World ndarray :=
  (oe <- run (get_frame_cmd file time) true
             (bool_decide (height = None) || bool_decide (width = None)) ;;
   wh <- lift (effective_size height width (snd oe)) ;;
   buf <- lift (as_buffer (fst oe)) ;;
   lift (reshape (frombuffer buf) [snd wh; fst wh; 3]))%py.

(** *** Reading the probe *)

(** [d[key]] *)
Definition subscript (d : json) (key : string) : result json :=
  match d with
  | JObj m => of_option KeyError (m !! key)
  | _ => raise TypeError
  end.

(** [x == s] for a string literal [s]. *)
Definition is_str (x : json) (s : string) : bool :=
  match x with
  | JStr t => bool_decide (t = text_of_string s)
  | _ => false
  end.

(** [int(x)] and [float(x)] *)
Definition py_int (x : json) : result Z :=
  match x with
  | JInt z => ret z
  | JStr t => of_option ValueError (int_of_text RT t)
  | _ => raise TypeError
  end.

Definition py_float (x : json) : result (float RT) :=
  match x with
  | JInt z => ret (float_of_int RT z)
  | JStr t => of_option ValueError (float_of_text RT t)
  | _ => raise TypeError
  end.

(** The generator expression over a list of streams, advanced once: the
    first stream whose [codec_type] is [video].  Streams after it are not
    looked at. *)
Fixpoint first_video (streams : list json) : result (option json) :=
  match streams with
  | [] => ret None
  | stream :: rest =>
      rbind (subscript stream "codec_type") (fun c =>
      if is_str c "video" then ret (Some stream) else first_video rest)
  end.

(** [next((stream for stream in probe["streams"] if ...), None)].
    Iterating a dictionary or a string gives strings, which cannot be
    subscripted by a string; an integer is not iterable. *)
Definition find_video_stream (probe_out : json) : result (option json) :=
  rbind (subscript probe_out "streams") (fun streams =>
  match streams with
  | JArr l => first_video l
  | JObj m => if bool_decide (m = ∅) then ret None else raise TypeError
  | JStr t => if bool_decide (t = []) then ret None else raise TypeError
  | JInt _ => raise TypeError
  end).

(** [video_stream[key]], where [video_stream] may be [None]. *)
Definition stream_field (video_stream : option json) (key : string) : result json :=
  match video_stream with
  | Some st => subscript st key
  | None => raise TypeError
  end.

(** *** The timestamps of the module-level functions *)

(** [[float(entry.group()[len("pts_time:"):]) for entry in re.finditer(...)]] *)
Fixpoint floats_of {A} (conv : A -> option (float RT)) (l : list A)
  : result (list (float RT)) :=
  match l with
  | [] => ret []
  | x :: l' =>
      rbind (of_option ValueError (conv x)) (fun f =>
      rbind (floats_of conv l') (fun fs => ret (f :: fs)))
  end.

Definition present_times (err : text) : result (list (float RT)) :=
  floats_of (float_of_text RT)
    (map (fun entry => skipn (String.length "pts_time:") (Re.group0 entry))
         (Re.finditer pts_time_re err)).

(** *** [get_all_frames_ffmpeg] *)

Definition showinfo_cmd (file : string) (vsync : Z) : ffmpeg_cmd :=
  FfmpegCmd file [("vsync", AInt vsync); ("hide_banner", ANone)]
            "pipe:" [("format", AStr "rawvideo"); ("pix_fmt", AStr "rgb24");
                     ("vf", AStr "showinfo")].

Definition get_all_frames_ffmpeg (file : string) (vsync : Z)
  : M World (list (float RT) * ndarray) :=
  (pr <- probe file ;;
   video_stream <- lift (find_video_stream pr) ;;
   width <- lift (rbind (stream_field video_stream "width") py_int) ;;
   height <- lift (rbind (stream_field video_stream "height") py_int) ;;
   oe <- run (showinfo_cmd file vsync) true true ;;
   err <- lift (rbind (as_bytes (snd oe)) decode_utf8) ;;
   present_time <- lift (present_times err) ;;
   buf <- lift (as_buffer (fst oe)) ;;
   frames <- lift (reshape (frombuffer buf) [-1; height; width; 3]) ;;
   mret (present_time, frames))%py.

(** *** [get_pts_list] *)

Definition null_cmd (file : string) (vsync : Z) : ffmpeg_cmd :=
  FfmpegCmd file [("vsync", AInt vsync); ("hide_banner", ANone)]
            "null" [("format", AStr "null"); ("vf", AStr "showinfo")].

Definition get_pts_list (file : string) (vsync : Z) : M World (list (float RT)) :=
  (oe <- run (null_cmd file vsync) false true ;;
   err <- lift (rbind (as_bytes (snd oe)) decode_utf8) ;;
   lift (present_times err))%py.

(** *** Generators

    A generator is a state and a function that advances it: one call of
    [next] yields a value, ends the generator normally or raises.  After
    either of the last two the generator is finished. *)
Inductive step (A : Type) : Type :=
| Yield (a : A)
| StopIteration
| Raised (e : exn).
Arguments Yield {A} a.
Arguments StopIteration {A}.
Arguments Raised {A} e.

(** How a loop over a generator ends. *)
Inductive ending : Type :=
| Exhausted
| Failed (e : exn)
| OutOfFuel.

(** [for x in g], collecting the values yielded. *)
Fixpoint drain {G S A} (next : G -> S -> step A * G * S)
         (fuel : nat) (g : G) (s : S) : list A * ending * G * S :=
  match fuel with
  | O => ([], OutOfFuel, g, s)
  | Datatypes.S fuel' =>
      match next g s with
      | (Yield a, g', s') =>
          let '(l, e, g'', s'') := drain next fuel' g' s' in
          (a :: l, e, g'', s'')
      | (StopIteration, g', s') => ([], Exhausted, g', s')
      | (Raised e, g', s') => ([], Failed e, g', s')
      end
  end.

(** [stream.run_async(pipe_stdout=.., pipe_stderr=..)]: the process is
    started; its exit status is not looked at. *)
Definition run_async (cmd : ffmpeg_cmd) (pipe_stdout pipe_stderr : bool)
  : M World process :=
  (log (Run cmd pipe_stdout pipe_stderr) ;;; mret (ffmpeg_exec cmd))%py.

(** [process.stdout.read(n)] on the buffered pipe: [n] bytes, or what is
    left when the stream ends before; everything for [-1]; a
    [ValueError] below [-1].  The second component is what stays
    unread. *)
Definition read (n : Z) (pipe : bytes) : result (bytes * bytes) :=
  if n <? -1 then raise ValueError
  else if n =? -1 then ret (pipe, [])
  else ret (firstn (Z.to_nat n) pipe, skipn (Z.to_nat n) pipe).

(** How a loop over the frames ends when the stream ends with [tail],
    which is shorter than a frame: normally when nothing is left, with
    the [ValueError] of [reshape] otherwise. *)
Definition ending_of (tail : bytes) : ending :=
  match tail with
  | [] => Exhausted
  | _ => Failed ValueError
  end.

(** The frames of width [w] and height [h] over the chunks [cs]. *)
Definition frames_of (w h : Z) (cs : list bytes) : list ndarray :=
  map (NdArray [h; w; 3]) cs.

(** *** [iter_all_frames_ffmpeg] *)

Definition rawvideo_cmd (file : string) (kwargs : list (string * arg)) : ffmpeg_cmd :=
  FfmpegCmd file kwargs
            "pipe:" [("format", AStr "rawvideo"); ("pix_fmt", AStr "rgb24")].

Inductive ffmpeg_iter : Type :=
| FStart (file : string) (vsync : Z)
| FLoop (width height : Z) (pipe : bytes)
| FDone.

(** One turn of the [while True] loop, up to the [break] or the [yield]:
    the frame read and what stays in the pipe, the end of the stream, or
    the exception of [read] or [reshape]. *)
Inductive turn : Type :=
| Frame (frame : ndarray) (rest : bytes)
| Eof (rest : bytes)
| Error (e : exn).

Definition read_frame (width height : Z) (pipe : bytes) : turn :=
  match read (width * height * 3) pipe with
  | inl e => Error e
  | inr (in_bytes, rest) =>
      match in_bytes with
      | [] => Eof rest
      | _ =>
          match reshape (frombuffer in_bytes) [height; width; 3] with
          | inl e => Error e
          | inr frame => Frame frame rest
          end
      end
  end.

Definition iter_all_frames_ffmpeg_start (file : string) (vsync : Z)
  : M World (Z * Z * bytes) :=
  (pr <- probe file ;;
   video_stream <- lift (find_video_stream pr) ;;
   width <- lift (rbind (stream_field video_stream "width") py_int) ;;
   height <- lift (rbind (stream_field video_stream "height") py_int) ;;
   p <- run_async (rawvideo_cmd file [("vsync", AInt vsync); ("hide_banner", ANone)])
                  true false ;;
   mret (width, height, stdout p))%py.

Definition iter_all_frames_ffmpeg_turn (width height : Z) (pipe : bytes) (w : World)
  : step ndarray * ffmpeg_iter * World :=
  match read_frame width height pipe with
  | Frame frame rest => (Yield frame, FLoop width height rest, w)
  | Eof _ => (StopIteration, FDone, w)
  | Error e => (Raised e, FDone, w)
  end.

Definition iter_all_frames_ffmpeg_next (g : ffmpeg_iter) (w : World)
  : step ndarray * ffmpeg_iter * World :=
  match g with
  | FStart file vsync =>
      match iter_all_frames_ffmpeg_start file vsync w with
      | (inl e, w') => (Raised e, FDone, w')
      | (inr (width, height, pipe), w') =>
          iter_all_frames_ffmpeg_turn width height pipe w'
      end
  | FLoop width height pipe => iter_all_frames_ffmpeg_turn width height pipe w
  | FDone => (StopIteration, FDone, w)
  end.

Definition iter_all_frames_ffmpeg (file : string) (vsync : Z) : ffmpeg_iter :=
  FStart file vsync.

(** *** [CatVideo] *)

Record CatVideo : Type := MkCatVideo {
  file : string;
  width : Z;
  height : Z;
  duration : float RT;
  vsync : Z;
  loglevel : string;
  pts_list : option (list (float RT))
}.

(** A method runs on the object and the world. *)
Definition Obj : Type := CatVideo * World.

Definition self : M Obj CatVideo := fun s => (ret (fst s), s).

Definition world {A} (c : M World A) : M Obj A :=
  fun s => let (r, w') := c (snd s) in (r, (fst s, w')).

(** [self.pts_list = l] *)
Definition with_pts (v : CatVideo) (l : list (float RT)) : CatVideo :=
  MkCatVideo (file v) (width v) (height v) (duration v) (vsync v)
             (loglevel v) (Some l).

Definition set_pts (l : list (float RT)) : M Obj unit :=
  fun s => (ret tt, (with_pts (fst s) l, snd s)).

(** [s in x] *)
Fixpoint is_prefix (p t : text) : bool :=
  match p, t with
  | [], _ => true
  | a :: p', b :: t' => (a =? b)%N && is_prefix p' t'
  | _ :: _, [] => false
  end.

Fixpoint is_substring (p t : text) : bool :=
  is_prefix p t ||
  match t with
  | [] => false
  | _ :: t' => is_substring p t'
  end.

Definition contains (x : json) (s : string) : result bool :=
  match x with
  | JObj m => ret (bool_decide (is_Some (m !! s)))
  | JStr t => ret (is_substring (text_of_string s) t)
  | JArr l => ret (existsb (fun y => is_str y s) l)
  | JInt _ => raise TypeError
  end.

(** Whether [__init__] exchanges width and height. *)
Definition rotated (video_stream : json) : result bool :=
  rbind (contains video_stream "tags") (fun has_tags =>
  if has_tags then
    rbind (subscript video_stream "tags") (fun tags =>
    rbind (contains tags "rotate") (fun has_rotate =>
    if has_rotate then
      rbind (subscript tags "rotate") (fun r1 =>
      if is_str r1 "90" then ret true
      else
        rbind (subscript tags "rotate") (fun r2 =>
        ret (is_str r2 "270")))
    else ret false))
  else ret false).

(** [CatVideo(file, vsync, loglevel)] *)
Definition init (file0 : string) (vsync0 : Z) (loglevel0 : string)
  : M World CatVideo :=
  (pr <- probe file0 ;;
   video_stream <- lift (find_video_stream pr) ;;
   match video_stream with
   | None => mraise ValueError
   | Some st =>
       w <- lift (rbind (subscript st "width") py_int) ;;
       h <- lift (rbind (subscript st "height") py_int) ;;
       swap <- lift (rotated st) ;;
       d <- lift (rbind (subscript st "duration") py_float) ;;
       mret (MkCatVideo file0 (if swap then h else w) (if swap then w else h)
                        d vsync0 loglevel0 None)
   end)%py.

(** [m.group(1)] of each match, converted by [float]. *)
Definition pts_of_matches (found : list (Re.match_obj byte))
  : result (list (float RT)) :=
  floats_of (float_of_bytes RT)
            (map (fun m => nth 0 (Re.groups m) []) found).

Definition set_pts_list : M Obj unit :=
  (v <- self ;;
   oe <- world (run (null_cmd (file v) (vsync v)) false true) ;;
   err <- lift (of_option TypeError (snd oe)) ;;
   l <- lift (pts_of_matches (Re.finditer pts_time_bytes_re err)) ;;
   set_pts l)%py.

Definition get_frame_time_cmd (v : CatVideo) (frame_time : float RT) : ffmpeg_cmd :=
  FfmpegCmd (file v)
            [("ss", AStr (str_of_float RT frame_time)); ("t", AStr "0.1");
             ("loglevel", AStr (loglevel v))]
            "pipe:" [("format", AStr "rawvideo"); ("pix_fmt", AStr "rgb24");
                     ("vframes", AInt 1)].

Definition get_frame_time (frame_time : float RT) : M Obj ndarray :=
  (v <- self ;;
   oe <- world (run (get_frame_time_cmd v frame_time) true false) ;;
   buf <- lift (as_buffer (fst oe)) ;;
   let raw_image := frombuffer buf in
   if size raw_image =? 0 then mraise ValueError
   else
     v' <- self ;;
     lift (reshape raw_image [height v'; width v'; 3]))%py.

(** [l[i]] on a list: negative positions count from the end. *)
Definition index {A} (l : list A) (i : Z) : result A :=
  let n := Z.of_nat (length l) in
  if (0 <=? i) && (i <? n) then of_option IndexError (l !! Z.to_nat i)
  else if (- n <=? i) && (i <? 0) then of_option IndexError (l !! Z.to_nat (i + n))
  else raise IndexError.

Definition get_frame_num (frame : Z) : M Obj ndarray :=
  (v <- self ;;
   (if bool_decide (pts_list v = None) then set_pts_list else mret tt) ;;;
   v' <- self ;;
   frame_time <- lift (match pts_list v' with
                       | Some l => index l frame
                       | None => raise TypeError
                       end) ;;
   get_frame_time frame_time)%py.

(** *** [CatVideo.iter_all_frames]

    The generator keeps the process it started, whether it piped the
    process's stderr, and the part of stdout not read yet.  The
    [finally] clause kills the process on every way out; the process is
    not part of the state any more once the generator is finished. *)
Inductive frames_iter : Type :=
| IStart
| ILoop (p : process) (pipe_stderr : bool) (pipe : bytes)
| IDone.

(** [process.communicate()]: the rest of the piped streams. *)
Definition communicate (p : process) (pipe_stderr : bool) (pipe : bytes)
  : option bytes * option bytes :=
  (Some pipe, piped pipe_stderr (stderr p)).

(** The statements after the loop.  [match_list] is bound nowhere in the
    module: evaluating it raises [NameError]. *)
Definition collect_pts (p : process) (pipe_stderr : bool) (pipe : bytes)
  : M Obj unit :=
  (v <- self ;;
   if bool_decide (pts_list v = None) then
     match snd (communicate p pipe_stderr pipe) with
     | Some err =>
         let pts_found := Re.finditer pts_time_bytes_re err in
         if (0 <? length pts_found)%nat then
           match_list <- mraise (A := list (Re.match_obj byte)) NameError ;;
           pts_found' <- lift (pts_of_matches match_list) ;;
           set_pts pts_found'
         else mret tt
     | None => mret tt
     end
   else mret tt)%py.

Definition iter_all_frames_turn (p : process) (pipe_stderr : bool) (pipe : bytes)
           (s : Obj) : step ndarray * frames_iter * Obj :=
  let v := fst s in
  match read_frame (width v) (height v) pipe with
  | Frame frame rest => (Yield frame, ILoop p pipe_stderr rest, s)
  | Eof rest =>
      match collect_pts p pipe_stderr rest s with
      | (inl e, s') => (Raised e, IDone, s')
      | (inr _, s') => (StopIteration, IDone, s')
      end
  | Error e => (Raised e, IDone, s)
  end.

Definition iter_all_frames_next (g : frames_iter) (s : Obj)
  : step ndarray * frames_iter * Obj :=
  match g with
  | IStart =>
      let v := fst s in
      let pipe_stderr := bool_decide (pts_list v = None) in
      match world (run_async
                     (rawvideo_cmd (file v)
                        [("vsync", AInt (vsync v)); ("hide_banner", ANone);
                         ("loglevel", AStr (loglevel v))])
                     true pipe_stderr) s with
      | (inl e, s') => (Raised e, IDone, s')
      | (inr p, s') => iter_all_frames_turn p pipe_stderr (stdout p) s'
      end
  | ILoop p pipe_stderr pipe => iter_all_frames_turn p pipe_stderr pipe s
  | IDone => (StopIteration, IDone, s)
  end.

(** [g.close()]: [GeneratorExit] is raised at the [yield], raised again
    by the handler, and the process is killed. *)
Definition iter_all_frames_close (g : frames_iter) (s : Obj) : frames_iter * Obj :=
  (IDone, s).

Definition iter_all_frames : frames_iter := IStart.

(** How a loop over [iter_all_frames] ends when the stream ends with
    [tail], which is shorter than a frame: with [reshape]'s [ValueError]
    when the stream ends inside a frame, and as the statements after the
    loop end otherwise. *)
Definition frames_ending (p : process) (pipe_stderr : bool)
           (tail : bytes) (s : Obj) : ending :=
  match tail with
  | [] =>
      match fst (collect_pts p pipe_stderr [] s) with
      | inl e => Failed e
      | inr _ => Exhausted
      end
  | _ => Failed ValueError
  end.

(** *** [CatVideo.get_random_frame] *)

(** [np.random.seed(seed)] for an integer seed. *)
Definition np_random_seed (seed : Z) : M World unit :=
  fun w =>
    if (0 <=? seed) && (seed <? 2 ^ 32)
    then (ret tt, MkWorld (calls w) (mt_seed RT seed))
    else (raise ValueError, w).

(** [np.random.random()] *)
Definition np_random_random : M World (float RT) :=
  fun w =>
    let (x, g) := mt_random RT (np_state w) in
    (ret x, MkWorld (calls w) g).

(** The state of the generator after [k] draws, and the draw that
    follows them. *)
Fixpoint nth_state (k : nat) (g : rng RT) : rng RT :=
  match k with
  | O => g
  | Datatypes.S k' => nth_state k' (snd (mt_random RT g))
  end.

Definition nth_draw (k : nat) (g : rng RT) : float RT :=
  fst (mt_random RT (nth_state k g)).

(** The [while True] loop, cut after [fuel] draws: [None] when no draw
    among them was accepted. *)
Fixpoint get_random_frame_loop (fuel : nat) (s : Obj)
  : option (result (float RT * ndarray) * Obj) :=
  match fuel with
  | O => None
  | Datatypes.S fuel' =>
      match (x <- world np_random_random ;;
             v <- self ;;
             mret (fmul RT x (duration v)))%py s with
      | (inl e, s1) => Some (inl e, s1)
      | (inr frame_time, s1) =>
          match get_frame_time frame_time s1 with
          | (inr frame, s2) => Some (ret (frame_time, frame), s2)
          | (inl e, s2) =>
              if is_ValueError e then get_random_frame_loop fuel' s2
              else Some (inl e, s2)
          end
      end
  end.

Definition get_random_frame (fuel : nat) (seed : option Z) (s : Obj)
  : option (result (float RT * ndarray) * Obj) :=
  match (match seed with
         | Some sd => world (np_random_seed sd)
         | None => mret tt
         end) s with
  | (inl e, s') => Some (inl e, s')
  | (inr _, s') => get_random_frame_loop fuel s'
  end.

(** *** Clients

    The calls a client makes on an object.  [IterAllFrames n] takes up to
    [n] frames from a new generator and closes it. *)
Inductive method : Type :=
| SetPtsList
| GetFrameNum (frame : Z)
| GetFrameTime (frame_time : float RT)
| GetRandomFrame (fuel : nat) (seed : option Z)
| IterAllFrames (n : nat).

(** The state after a call, whether it returned or raised; [None] when
    the loop of [get_random_frame] has not ended within its fuel. *)
Definition call_method (m : method) (s : Obj) : option Obj :=
  match m with
  | SetPtsList => Some (snd (set_pts_list s))
  | GetFrameNum frame => Some (snd (get_frame_num frame s))
  | GetFrameTime frame_time => Some (snd (get_frame_time frame_time s))
  | GetRandomFrame fuel seed => option_map snd (get_random_frame fuel seed s)
  | IterAllFrames n =>
      let '(_, _, g, s') := drain iter_all_frames_next n iter_all_frames s in
      Some (snd (iter_all_frames_close g s'))
  end.

Fixpoint call_methods (ms : list method) (s : Obj) : option Obj :=
  match ms with
  | [] => Some s
  | m :: ms' =>
      match call_method m s with
      | Some s' => call_methods ms' s'
      | None => None
      end
  end.

(** Two objects that differ in [pts_list] at most. *)
Definition same_video (v v' : CatVideo) : Prop :=
  file v = file v' /\ width v = width v' /\ height v = height v' /\
  duration v = duration v' /\ vsync v = vsync v' /\ loglevel v = loglevel v'.

(** From [s] to [s']: the object differs in [pts_list] at most and the
    external calls made so far are still there, in order. *)
Definition evolves (s s' : Obj) : Prop :=
  same_video (fst s) (fst s') /\ calls (snd s) `prefix_of` calls (snd s').

End VideoUtils.

Arguments Yield {A} a.
Arguments StopIteration {A}.
Arguments Raised {A} e.

(** ** The OpenCV functions

    A [cv2.VideoCapture] is known by what the module asks of it: opening
    a file, [grab], [retrieve] and [read], each returning its answer and
    the capture after the call.  A frame that is not there is [None]. *)
Record Cv2 : Type := {
  capture : Type;
  image : Type;
  VideoCapture : string -> capture;
  cv_grab : capture -> bool * capture;
  cv_retrieve : capture -> (bool * option image) * capture;
  cv_read : capture -> (bool * option image) * capture
}.

Section OpenCV.
Variable CV : Cv2.

(** [for i in range(n): capture.grab()]; the answers of [grab] are not
    looked at. *)
Fixpoint grabs (n : nat) (c : capture CV) : capture CV :=
  match n with
  | O => c
  | Datatypes.S n' => grabs n' (snd (cv_grab CV c))
  end.

Definition get_frame_opencv (filename : string) (frame_number : Z)
  : bool * option (image CV) :=
  fst (cv_retrieve CV (grabs (Z.to_nat frame_number) (VideoCapture CV filename))).

(** The [while True] loop of [get_all_frames_opencv], cut after [fuel]
    reads: [None] when no read among them has failed. *)
Fixpoint read_all (fuel : nat) (c : capture CV) : option (list (option (image CV))) :=
  match fuel with
  | O => None
  | Datatypes.S fuel' =>
      let '(playing, frame, c') := cv_read CV c in
      if playing then option_map (cons frame) (read_all fuel' c')
      else Some []
  end.

Definition get_all_frames_opencv (fuel : nat) (file : string)
  : option (list (option (image CV))) :=
  read_all fuel (VideoCapture CV file).

(** The capture after [n] reads, and the answer of the read that follows
    them. *)
Fixpoint after_reads (n : nat) (c : capture CV) : capture CV :=
  match n with
  | O => c
  | Datatypes.S n' => after_reads n' (snd (cv_read CV c))
  end.

Definition nth_read (n : nat) (c : capture CV) : bool * option (image CV) :=
  fst (cv_read CV (after_reads n c)).

End OpenCV.

(** ** A runtime to compute with

    The examples below run the module on IEEE 754 binary64 arithmetic
    (the operations of [SpecFloat] at precision 53), with conversions that
    cover the ASCII decimal literals the examples use, and a linear
    congruential generator in place of the Mersenne Twister.  The
    generator draws [k / 2^53] for a 53-bit [k], as NumPy does. *)
Module Binary64.

Definition prec : Z := 53.
Definition emax : Z := 1024.

Definition of_Z (z : Z) : spec_float := binary_normalize prec emax z 0 false.

Definition mul : spec_float -> spec_float -> spec_float := SFmul prec emax.
Definition div : spec_float -> spec_float -> spec_float := SFdiv prec emax.

Definition digit_value (c : N) : option Z :=
  if ((48 <=? c) && (c <=? 57))%N then Some (Z.of_N c - 48) else None.

(** The value of a string of decimal digits. *)
Fixpoint digits_value (acc : Z) (t : text) : option Z :=
  match t with
  | [] => Some acc
  | c :: t' =>
      match digit_value c with
      | Some d => digits_value (10 * acc + d) t'
      | None => None
      end
  end.

Definition parse_int (t : text) : option Z :=
  match t with
  | [] => None
  | _ => digits_value 0 t
  end.

(** Digits, or digits, a dot and digits, between optional white space:
    the quotient of two integers that binary64 holds exactly, rounded
    once. *)
Fixpoint split_dot (t : text) : text * option text :=
  match t with
  | [] => ([], None)
  | c :: t' =>
      if (c =? 46)%N then ([], Some t')
      else let (a, b) := split_dot t' in (c :: a, b)
  end.

Definition is_space (c : N) : bool :=
  ((c =? 32) || ((9 <=? c) && (c <=? 13)))%N.

Fixpoint lstrip (t : text) : text :=
  match t with
  | c :: t' => if is_space c then lstrip t' else t
  | [] => []
  end.

Definition strip (t : text) : text := rev (lstrip (rev (lstrip t))).

Definition parse_float (t : text) : option spec_float :=
  match split_dot (strip t) with
  | (a, None) => option_map of_Z (parse_int a)
  | (a, Some b) =>
      match parse_int (a ++ b) with
      | Some m =>
          if (m <? 2 ^ 53) && (length b <=? 22)%nat
          then Some (div (of_Z m) (of_Z (10 ^ Z.of_nat (length b))))
          else None
      | None => None
      end
  end.

Definition print_float (x : spec_float) : string :=
  match x with
  | S754_zero s => if s then "-0.0" else "0.0"
  | S754_infinity s => if s then "-inf" else "inf"
  | S754_nan => "nan"
  | S754_finite s m e =>
      ((if s then "-" else "") +:+ pretty (Zpos m) +:+ "p" +:+ pretty e)%string
  end.

Definition lcg_next (g : Z) : Z := (6364136223846793005 * g + 1442695040888963407) mod 2 ^ 64.

Definition lcg_random (g : Z) : spec_float * Z :=
  let g' := lcg_next g in
  (div (of_Z (g' / 2 ^ 11)) (of_Z (2 ^ 53)), g').

Definition runtime : PyRuntime := {|
  float := spec_float;
  float_of_text := parse_float;
  float_of_bytes := fun b => parse_float (map Byte.to_N b);
  float_of_int := of_Z;
  str_of_float := print_float;
  fmul := mul;
  int_of_text := parse_int;
  unicode_digit := digit_value;
  rng := Z;
  mt_seed := fun s => s;
  mt_random := lcg_random
|}.
End Binary64.

(** ** Concrete decoders for the examples *)
Module Examples.
Definition RT : PyRuntime := Binary64.runtime.

Definition zero : float RT := Binary64.of_Z 0.

(** Twelve bytes: one 2x2 frame of three channels. *)
Definition frame_2x2 : bytes := bytes_of_string "abcdefghijkl".

(** A decoder that writes one 2x2 frame and the banner of a 2x2 video. *)
Definition still_2x2 (_ : ffmpeg_cmd) : process :=
  Process frame_2x2
          (bytes_of_string "Stream #0:0: Video: rawvideo, rgb24, 2x2, 25 fps")
          0.

Definition w0 : World RT := MkWorld RT [] 0.

(** A decoder for a clip of two 2x2 frames: the filter log names the two
    presentation times when the output is the null muxer, one frame is
    written for a seek, both frames otherwise. *)
Definition showinfo_log : bytes :=
  bytes_of_string
    "[Parsed_showinfo_0] n:0 pts:0 pts_time:0 pos:48
[Parsed_showinfo_0] n:1 pts:512 pts_time:0.04 pos:60
".

Definition is_seek (cmd : ffmpeg_cmd) : bool :=
  existsb (fun kv => String.eqb (fst kv) "ss") (input_kwargs cmd).

Definition clip_2x2 (cmd : ffmpeg_cmd) : process :=
  if String.eqb (output_file cmd) "null" then Process [] showinfo_log 0
  else if is_seek cmd then Process frame_2x2 [] 0
  else Process (frame_2x2 ++ frame_2x2) showinfo_log 0.

Definition video (w h : Z) (pts : option (list (float RT))) : CatVideo RT :=
  MkCatVideo RT "a.mp4" w h (Binary64.of_Z 2) 0 "error" pts.

(** The probe of that clip: an audio stream, then the video stream. *)
Definition audio_stream : json :=
  JObj (<["codec_type" := JStr (text_of_string "audio")]> ∅).

Definition video_stream_2x2 : gmap string json :=
  <["codec_type" := JStr (text_of_string "video")]>
    (<["width" := JInt 2]> (<["height" := JInt 2]> ∅)).

Definition probe_2x2 (_ : string) : option json :=
  Some (JObj (<["streams" :=
                JArr [audio_stream;
                      JObj (<["duration" := JStr (text_of_string "0.08")]>
                              video_stream_2x2)]]> ∅)).

(** The probe of a file whose container keeps no duration for the
    stream, and of one whose video was recorded upright on a phone. *)
Definition probe_no_duration (_ : string) : option json :=
  Some (JObj (<["streams" := JArr [JObj video_stream_2x2]]> ∅)).

Definition probe_rotated (_ : string) : option json :=
  Some (JObj (<["streams" :=
                JArr [JObj (<["tags" := JObj (<["rotate" := JStr (text_of_string "90")]> ∅)]>
                             (<["duration" := JStr (text_of_string "0.08")]>
                                (<["width" := JInt 4]> video_stream_2x2)))]]> ∅)).


(** A decoder that pads the output to a constant frame rate: the filter
    logs the two frames it saw, the second one is written twice. *)
Definition dup_2x2 (_ : ffmpeg_cmd) : process :=
  Process (frame_2x2 ++ frame_2x2 ++ frame_2x2) showinfo_log 0.

(** A decoder for a file without a single frame: it writes nothing. *)
Definition blank (_ : ffmpeg_cmd) : process := Process [] [] 0.

(** A capture over a list of frames: [grab] moves to the next frame,
    [retrieve] gives the frame moved to last, [read] does both. *)
Definition list_grab (c : option nat * list nat) : bool * (option nat * list nat) :=
  match snd c with
  | x :: rest => (true, (Some x, rest))
  | [] => (false, (None, []))
  end.

Definition list_retrieve (c : option nat * list nat)
  : (bool * option nat) * (option nat * list nat) :=
  ((bool_decide (is_Some (fst c)), fst c), c).

Definition list_capture (frames : list nat) : Cv2 := {|
  capture := option nat * list nat;
  image := nat;
  VideoCapture := fun _ => (None, frames);
  cv_grab := list_grab;
  cv_retrieve := list_retrieve;
  cv_read := fun c => list_retrieve (snd (list_grab c))
|}.

(** A decoder that is stopped one byte into the second frame. *)
Definition cut_2x2 (_ : ffmpeg_cmd) : process :=
  Process (frame_2x2 ++ bytes_of_string "a") [] 0.
End Examples.

(** * Properties *)

(** ** The matcher *)

(** [re.search] returns the match at the first position that has one. *)
Lemma search_leftmost {A} (re : Re.pattern A) (s : list A) (m : Re.match_obj A) :
  Re.search re s = Some m ->
  exists k : nat,
    Re.match_at re (skipn k s) = Some m /\
    forall j : nat, (j < k)%nat -> Re.match_at re (skipn j s) = None.
Proof.
  induction s as [|c s IH]; simpl.
  - destruct (Re.match_at re []) eqn:E; [|discriminate].
    intros [= <-]. exists 0%nat. split; [exact E | intros j Hj; lia].
  - destruct (Re.match_at re (c :: s)) eqn:E.
    + intros [= <-]. exists 0%nat. split; [exact E | intros j Hj; lia].
    + intros H. destruct (IH H) as (k & Hk & Hlt).
      exists (Datatypes.S k). split; [exact Hk|].
      intros [|j] Hj; [exact E | apply Hlt; lia].
Qed.

(** ** [reshape] *)

Lemma reshape_frame (a : ndarray) (h w : Z) :
  0 <= h -> 0 <= w ->
  reshape a [h; w; 3] =
    if h * w * 3 =? size a then inr (NdArray [h; w; 3] (data a)) else inl ValueError.
Proof.
  intros Hh Hw. unfold reshape, is_unknown. simpl.
  assert ((h <? -1) = false) as -> by lia.
  assert ((w <? -1) = false) as -> by lia.
  assert ((h =? -1) = false) as -> by lia.
  assert ((w =? -1) = false) as -> by lia.
  simpl. unfold prodZ. simpl.
  replace (h * (w * (3 * 1))) with (h * w * 3) by lia.
  reflexivity.
Qed.

(** [reshape] never changes the bytes. *)
Lemma reshape_data (a b : ndarray) (sh : list Z) :
  reshape a sh = inr b -> data b = data a.
Proof.
  unfold reshape.
  destruct (existsb _ sh); [discriminate|].
  destruct (List.filter is_unknown sh) as [|? [|? ?]]; [| |discriminate].
  - destruct (_ =? _); [|discriminate]. now intros [= <-].
  - destruct (_ =? 0); [discriminate|].
    destruct (_ =? 0); [|discriminate]. now intros [= <-].
Qed.

(** Every refusal of [reshape] is a [ValueError]. *)
Lemma reshape_error (a : ndarray) (sh : list Z) (e : exn) :
  reshape a sh = inl e -> e = ValueError.
Proof.
  unfold reshape, raise.
  repeat match goal with
         | |- context [if ?c then _ else _] => destruct c
         | |- context [match ?l with [] => _ | _ => _ end] => destruct l
         end; intros [= <-] || discriminate; reflexivity.
Qed.

(** ** [get_frame] *)

Lemma effective_size_piped (RT : PyRuntime) (height width : option Z) (err : bytes) :
  effective_size RT height width
    (piped (bool_decide (height = None) || bool_decide (width = None)) err)
  = effective_size RT height width (Some err).
Proof.
  destruct height, width; reflexivity.
Qed.

(** What [get_frame] does, in one equation. *)
Lemma get_frame_unfold (RT : PyRuntime) (exec : ffmpeg_cmd -> process)
      (file : string) (time : float RT) (height width : option Z) (w0 : World RT) :
  let cmd := get_frame_cmd RT file time in
  let need := bool_decide (height = None) || bool_decide (width = None) in
  get_frame RT exec file time height width w0 =
    (if returncode (exec cmd) =? 0 then
       rbind (effective_size RT height width (Some (stderr (exec cmd)))) (fun wh =>
       reshape (frombuffer (stdout (exec cmd))) [snd wh; fst wh; 3])
     else inl FfmpegError,
     MkWorld RT (calls RT w0 ++ [Run cmd true need]) (np_state RT w0)).
Proof.
  intros cmd need.
  unfold get_frame, mbind, run, log, lift, mret, mraise. simpl. fold cmd need.
  destruct (returncode (exec cmd) =? 0); [|reflexivity].
  simpl. subst need. rewrite effective_size_piped.
  destruct (effective_size RT height width _) as [e|[w h]]; reflexivity.
Qed.

(** C5, as the code has it.  When the decoder run succeeds and the height
    and width in force are not negative, [get_frame] returns the array of
    shape (height, width, 3) over the bytes of the decoder's output if
    there are exactly height*width*3 of them, and raises the [ValueError]
    of [reshape] otherwise. *)
Theorem get_frame_reshapes (RT : PyRuntime) (exec : ffmpeg_cmd -> process)
        (file : string) (time : float RT) (height width : option Z)
        (w0 : World RT) (w h : Z) :
  let p := exec (get_frame_cmd RT file time) in
  returncode p = 0 ->
  effective_size RT height width (Some (stderr p)) = inr (w, h) ->
  0 <= h -> 0 <= w ->
  (Z.of_nat (length (stdout p)) = h * w * 3 ->
   fst (get_frame RT exec file time height width w0)
   = inr (NdArray [h; w; 3] (stdout p)))
  /\
  (Z.of_nat (length (stdout p)) <> h * w * 3 ->
   fst (get_frame RT exec file time height width w0) = inl ValueError).
Proof.
  intros p Hrc Hsize Hh Hw.
  rewrite get_frame_unfold. fold p. rewrite Hrc, Hsize. simpl.
  rewrite reshape_frame by assumption. unfold size. simpl.
  split; intros Hlen.
  - rewrite Hlen, Z.eqb_refl. reflexivity.
  - destruct (h * w * 3 =? _) eqn:E; [|reflexivity]. lia.
Qed.

Lemma get_frame_reshapes_witness :
  fst (get_frame Examples.RT Examples.still_2x2 "a.mp4" Examples.zero
                 None None Examples.w0)
  = inr (NdArray [2; 2; 3] Examples.frame_2x2).
Proof.
  apply (proj1 (get_frame_reshapes Examples.RT Examples.still_2x2 "a.mp4"
                  Examples.zero None None Examples.w0 2 2
                  eq_refl eq_refl ltac:(lia) ltac:(lia))).
  reflexivity.
Defined.

(** C5 as stated fails for a dimension of [-1], which [reshape] infers:
    with height [-1] and width [2], twelve bytes are not [-1 * 2 * 3]
    bytes, and [get_frame] returns an array of shape (2, 2, 3). *)
Lemma get_frame_infers_unknown_height :
  fst (get_frame Examples.RT Examples.still_2x2 "a.mp4" Examples.zero
                 (Some (-1)) (Some 2) Examples.w0)
  = inr (NdArray [2; 2; 3] Examples.frame_2x2)
  /\ Z.of_nat (length Examples.frame_2x2) <> -1 * 2 * 3.
Proof.
  split; [reflexivity | discriminate].
Qed.

(** C6.  With both sizes given, the decoder is run without capturing
    stderr and the frame is shaped by the given sizes; what the decoder
    writes on stderr has no part in the result.  With either missing,
    stderr is captured, and when the pattern is found in its text both
    sizes are the integers of the two groups of the match [re.search]
    returns (the match at the first position that has one), whatever
    size was given. *)
Theorem get_frame_resolution (RT : PyRuntime) (exec : ffmpeg_cmd -> process)
        (file : string) (time : float RT) (w0 : World RT) :
  let cmd := get_frame_cmd RT file time in
  let p := exec cmd in
  (forall h w : Z,
      get_frame RT exec file time (Some h) (Some w) w0
      = (if returncode p =? 0
         then reshape (frombuffer (stdout p)) [h; w; 3]
         else inl FfmpegError,
         MkWorld RT (calls RT w0 ++ [Run cmd true false]) (np_state RT w0)))
  /\
  (forall height width : option Z,
      height = None \/ width = None ->
      snd (get_frame RT exec file time height width w0)
      = MkWorld RT (calls RT w0 ++ [Run cmd true true]) (np_state RT w0)
      /\
      forall (t : text) (m : Re.match_obj N) (gw gh : text) (w' h' : Z),
        returncode p = 0 ->
        decode_utf8 (stderr p) = inr t ->
        Re.search (video_re RT) t = Some m ->
        Re.groups m = [gw; gh] ->
        int_of_text RT gw = Some w' ->
        int_of_text RT gh = Some h' ->
        fst (get_frame RT exec file time height width w0)
        = reshape (frombuffer (stdout p)) [h'; w'; 3]
        /\
        exists k : nat,
          Re.match_at (video_re RT) (skipn k t) = Some m /\
          forall j : nat, (j < k)%nat -> Re.match_at (video_re RT) (skipn j t) = None).
Proof.
  intros cmd p. split.
  - intros h w. rewrite get_frame_unfold. fold cmd p. simpl.
    destruct (returncode p =? 0); reflexivity.
  - intros height width Hnone. rewrite get_frame_unfold. fold cmd p.
    assert (bool_decide (height = None) || bool_decide (width = None) = true) as Hneed.
    { destruct Hnone as [-> | ->]; [reflexivity|].
      destruct height; reflexivity. }
    rewrite Hneed. split; [reflexivity|].
    intros t m gw gh w' h' Hrc Hdec Hsearch Hgroups Hw Hh.
    split; [|now apply search_leftmost].
    simpl. rewrite Hrc. simpl.
    assert (effective_size RT height width (Some (stderr p)) = inr (w', h')) as ->.
    { assert (effective_size RT height width (Some (stderr p))
              = parse_resolution RT (Some (stderr p))) as ->.
      { destruct Hnone as [-> | ->]; [reflexivity|]. destruct height; reflexivity. }
      unfold parse_resolution. simpl. rewrite Hdec. simpl.
      rewrite Hsearch. simpl. rewrite Hgroups, Hw. simpl. rewrite Hh. reflexivity. }
    reflexivity.
Qed.

Lemma get_frame_resolution_witness :
  fst (get_frame Examples.RT Examples.still_2x2 "a.mp4" Examples.zero
                 None (Some 7) Examples.w0)
  = reshape (frombuffer Examples.frame_2x2) [2; 2; 3].
Proof.
  pose proof (get_frame_resolution Examples.RT Examples.still_2x2 "a.mp4"
                Examples.zero Examples.w0) as [_ H].
  destruct (H None (Some 7) (or_introl eq_refl)) as [_ H'].
  edestruct H' as [Hres _];
    [reflexivity | reflexivity | reflexivity | reflexivity
     | reflexivity | reflexivity | exact Hres].
Defined.

(** ** [CatVideo.get_frame_time] *)

(** What [get_frame_time] does, in one equation: one decoder run, the
    object as it was. *)
Lemma get_frame_time_unfold (RT : PyRuntime) (exec : ffmpeg_cmd -> process)
      (frame_time : float RT) (v : CatVideo RT) (w0 : World RT) :
  let cmd := get_frame_time_cmd RT v frame_time in
  get_frame_time RT exec frame_time (v, w0) =
    (if returncode (exec cmd) =? 0 then
       match stdout (exec cmd) with
       | [] => inl ValueError
       | _ => reshape (frombuffer (stdout (exec cmd))) [height RT v; width RT v; 3]
       end
     else inl FfmpegError,
     (v, MkWorld RT (calls RT w0 ++ [Run cmd true false]) (np_state RT w0))).
Proof.
  intros cmd.
  unfold get_frame_time, mbind, self, world, run, log, lift, mret, mraise.
  simpl. fold cmd.
  destruct (returncode (exec cmd) =? 0); [|reflexivity].
  simpl. unfold size. simpl.
  destruct (stdout (exec cmd)) as [|b out]; [reflexivity|].
  simpl. destruct (reshape _ _); reflexivity.
Qed.

(** C9, as the code has it.  [get_frame_time] leaves the object as it
    was.  When the decoder run succeeds it raises [ValueError] exactly
    when the output is empty or [reshape] refuses it, which for a height
    and width that are not negative is when the output does not have
    height*width*3 bytes; otherwise it returns the array of shape
    (height, width, 3) over the output.  When the decoder exits with an
    error it raises [ffmpeg.Error]. *)
Theorem get_frame_time_outcome (RT : PyRuntime) (exec : ffmpeg_cmd -> process)
        (frame_time : float RT) (v : CatVideo RT) (w0 : World RT) :
  let p := exec (get_frame_time_cmd RT v frame_time) in
  let r := get_frame_time RT exec frame_time (v, w0) in
  let n := Z.of_nat (length (stdout p)) in
  fst (snd r) = v
  /\
  (returncode p <> 0 -> fst r = inl FfmpegError)
  /\
  (returncode p = 0 ->
   (fst r = inl ValueError <->
    stdout p = [] \/
    reshape (frombuffer (stdout p)) [height RT v; width RT v; 3] = inl ValueError)
   /\
   (0 <= height RT v -> 0 <= width RT v ->
    (fst r = inl ValueError <-> n = 0 \/ n <> height RT v * width RT v * 3)
    /\
    (n <> 0 -> n = height RT v * width RT v * 3 ->
     fst r = inr (NdArray [height RT v; width RT v; 3] (stdout p))))).
Proof.
  intros p r n. subst r. rewrite get_frame_time_unfold. fold p. simpl.
  split; [reflexivity|]. split.
  - intros Hrc. destruct (returncode p =? 0) eqn:E; [lia | reflexivity].
  - intros Hrc. rewrite Hrc. simpl. split.
    + destruct (stdout p) as [|b out] eqn:Eout.
      * split; [now left | reflexivity].
      * split; [now right | intros [H|H]; [discriminate | exact H]].
    + intros Hh Hw. rewrite reshape_frame by assumption.
      unfold size. simpl. subst n.
      destruct (stdout p) as [|b out] eqn:Eout.
      * simpl. split; [split; [now left | reflexivity] | intros; exfalso; lia].
      * destruct (height RT v * width RT v * 3 =? _) eqn:E.
        -- apply Z.eqb_eq in E. split; [|reflexivity].
           split; [discriminate|].
           intros [H|H]; exfalso; [cbn [length] in H; lia | lia].
        -- apply Z.eqb_neq in E.
           split; [split; [right; lia | reflexivity] | intros; exfalso; lia].
Qed.

Lemma get_frame_time_outcome_witness :
  fst (get_frame_time Examples.RT Examples.clip_2x2 Examples.zero
                      (Examples.video 2 2 None, Examples.w0))
  = inr (NdArray [2; 2; 3] Examples.frame_2x2).
Proof.
  pose proof (get_frame_time_outcome Examples.RT Examples.clip_2x2 Examples.zero
                (Examples.video 2 2 None) Examples.w0) as (_ & _ & H).
  destruct (H eq_refl) as [_ H'].
  destruct (H' ltac:(simpl; lia) ltac:(simpl; lia)) as [_ H''].
  apply H''; [discriminate | reflexivity].
Defined.

(** C9 as stated fails when the output is not empty and has the wrong
    length: a 1x1 video object and twelve bytes of output make [reshape]
    raise [ValueError]. *)
Lemma get_frame_time_wrong_length :
  fst (get_frame_time Examples.RT Examples.clip_2x2 Examples.zero
                      (Examples.video 1 1 None, Examples.w0))
  = inl ValueError
  /\ stdout (Examples.clip_2x2
               (get_frame_time_cmd Examples.RT (Examples.video 1 1 None) Examples.zero))
     <> [].
Proof.
  split; [reflexivity | discriminate].
Qed.

(** ** [CatVideo.set_pts_list] and [CatVideo.get_frame_num] *)

(** What [set_pts_list] does, in one equation: one run of the decoder into
    the null muxer, and the timestamps stored when all of them convert. *)
Lemma set_pts_list_unfold (RT : PyRuntime) (exec : ffmpeg_cmd -> process)
      (v : CatVideo RT) (w0 : World RT) :
  let cmd := null_cmd (file RT v) (vsync RT v) in
  let w1 := MkWorld RT (calls RT w0 ++ [Run cmd false true]) (np_state RT w0) in
  set_pts_list RT exec (v, w0) =
    if returncode (exec cmd) =? 0 then
      match pts_of_matches RT (Re.finditer pts_time_bytes_re (stderr (exec cmd))) with
      | inl e => (inl e, (v, w1))
      | inr l => (inr tt, (with_pts RT v l, w1))
      end
    else (inl FfmpegError, (v, w1)).
Proof.
  intros cmd w1.
  unfold set_pts_list, mbind, self, world, run, log, lift, mret, mraise, set_pts.
  simpl. fold cmd.
  destruct (returncode (exec cmd) =? 0); [|reflexivity].
  simpl. destruct (pts_of_matches RT _); reflexivity.
Qed.

(** [set_pts_list] raises without touching the object, or returns with
    the list stored. *)
Lemma set_pts_list_cases (RT : PyRuntime) (exec : ffmpeg_cmd -> process)
      (v : CatVideo RT) (w0 : World RT) :
  (exists e, fst (set_pts_list RT exec (v, w0)) = inl e
             /\ fst (snd (set_pts_list RT exec (v, w0))) = v)
  \/
  (exists l, fst (set_pts_list RT exec (v, w0)) = inr tt
             /\ fst (snd (set_pts_list RT exec (v, w0))) = with_pts RT v l).
Proof.
  rewrite set_pts_list_unfold.
  destruct (returncode _ =? 0).
  - destruct (pts_of_matches RT _) as [e|l].
    + left. now exists e.
    + right. now exists l.
  - left. now exists FfmpegError.
Qed.

Lemma index_valid {A} (l : list A) (i : Z) :
  - Z.of_nat (length l) <= i < Z.of_nat (length l) ->
  exists x, index l i = inr x.
Proof.
  intros Hi. unfold index.
  destruct ((0 <=? i) && (i <? Z.of_nat (length l))) eqn:E1.
  - destruct (lookup_lt_is_Some_2 l (Z.to_nat i)) as [x Hx]; [lia|].
    exists x. now rewrite Hx.
  - assert ((- Z.of_nat (length l) <=? i) && (i <? 0) = true) as -> by lia.
    destruct (lookup_lt_is_Some_2 l (Z.to_nat (i + Z.of_nat (length l)))) as [x Hx];
      [lia|].
    exists x. now rewrite Hx.
Qed.

(** What [get_frame_num] does once the list of timestamps is there. *)
Lemma get_frame_num_cached (RT : PyRuntime) (exec : ffmpeg_cmd -> process)
      (frame : Z) (v : CatVideo RT) (w0 : World RT) (l : list (float RT)) :
  pts_list RT v = Some l ->
  get_frame_num RT exec frame (v, w0) =
    match index l frame with
    | inl e => (inl e, (v, w0))
    | inr t => get_frame_time RT exec t (v, w0)
    end.
Proof.
  intros Hl. unfold get_frame_num, mbind, self, lift, mret. simpl.
  rewrite Hl. simpl. rewrite Hl. destruct (index l frame); reflexivity.
Qed.

(** What it does when the list is still [None]. *)
Lemma get_frame_num_fresh (RT : PyRuntime) (exec : ffmpeg_cmd -> process)
      (frame : Z) (v : CatVideo RT) (w0 : World RT) :
  pts_list RT v = None ->
  get_frame_num RT exec frame (v, w0) =
    match set_pts_list RT exec (v, w0) with
    | (inl e, s1) => (inl e, s1)
    | (inr _, s1) =>
        match pts_list RT (fst s1) with
        | Some l =>
            match index l frame with
            | inl e => (inl e, s1)
            | inr t => get_frame_time RT exec t s1
            end
        | None => (inl TypeError, s1)
        end
    end.
Proof.
  intros Hl. unfold get_frame_num, mbind, self, lift, mret. simpl.
  rewrite Hl. simpl.
  destruct (set_pts_list RT exec (v, w0)) as [[e|[]] s1]; [reflexivity|].
  simpl. destruct (pts_list RT (fst s1)) as [l|]; [|reflexivity].
  destruct (index l frame); reflexivity.
Qed.

(** C1.  Let [s1] be the state after [set_pts_list] when [pts_list] is
    still [None], and the state of the call otherwise.  For every valid
    position [i] of the list of timestamps in [s1], negative positions
    counting from the end, [get_frame_num(i)] is [get_frame_time] at the
    timestamp stored at [i], run from [s1]: same frame or exception, same
    object and same decoder calls afterwards. *)
Theorem get_frame_num_by_timestamp (RT : PyRuntime) (exec : ffmpeg_cmd -> process)
        (i : Z) (v : CatVideo RT) (w0 : World RT) (l : list (float RT)) :
  let s1 := if bool_decide (pts_list RT v = None)
            then snd (set_pts_list RT exec (v, w0))
            else (v, w0) in
  pts_list RT (fst s1) = Some l ->
  - Z.of_nat (length l) <= i < Z.of_nat (length l) ->
  exists t : float RT,
    index l i = inr t /\
    get_frame_num RT exec i (v, w0) = get_frame_time RT exec t s1.
Proof.
  intros s1 Hl Hi. destruct (index_valid l i Hi) as [t Ht].
  exists t. split; [exact Ht|]. subst s1.
  destruct (pts_list RT v) as [l0|] eqn:Hv; simpl in *.
  - rewrite (get_frame_num_cached RT exec i v w0 l0 Hv).
    rewrite Hv in Hl. injection Hl as ->. now rewrite Ht.
  - rewrite (get_frame_num_fresh RT exec i v w0 Hv).
    destruct (set_pts_list_cases RT exec v w0) as [(e & He & Hs) | (l' & He & Hs)].
    + rewrite Hs, Hv in Hl. discriminate.
    + destruct (set_pts_list RT exec (v, w0)) as [r s1]. simpl in *. subst r.
      rewrite Hl, Ht. reflexivity.
Qed.

Lemma get_frame_num_by_timestamp_witness :
  exists t : float Examples.RT,
    index [Examples.zero; Binary64.div (Binary64.of_Z 4) (Binary64.of_Z 100)] (-1)
    = inr t /\
    get_frame_num Examples.RT Examples.clip_2x2 (-1)
                  (Examples.video 2 2 None, Examples.w0)
    = get_frame_time Examples.RT Examples.clip_2x2 t
        (snd (set_pts_list Examples.RT Examples.clip_2x2
                (Examples.video 2 2 None, Examples.w0))).
Proof.
  apply (get_frame_num_by_timestamp Examples.RT Examples.clip_2x2 (-1)
           (Examples.video 2 2 None) Examples.w0
           [Examples.zero; Binary64.div (Binary64.of_Z 4) (Binary64.of_Z 100)]).
  - reflexivity.
  - simpl. lia.
Defined.

(** ** What the methods keep of the object *)

Section Frame.
Variable RT : PyRuntime.
Variable exec : ffmpeg_cmd -> process.

Lemma same_video_refl (v : CatVideo RT) : same_video RT v v.
Proof. repeat split. Qed.

Lemma same_video_with_pts (v : CatVideo RT) (l : list (float RT)) :
  same_video RT v (with_pts RT v l).
Proof. repeat split. Qed.

Lemma evolves_refl (s : Obj RT) : evolves RT s s.
Proof. split; [apply same_video_refl | reflexivity]. Qed.

Lemma evolves_trans (s1 s2 s3 : Obj RT) :
  evolves RT s1 s2 -> evolves RT s2 s3 -> evolves RT s1 s3.
Proof.
  intros [(A1 & A2 & A3 & A4 & A5 & A6) P1] [(B1 & B2 & B3 & B4 & B5 & B6) P2].
  split; [|etransitivity; eassumption].
  repeat split; etransitivity; eassumption.
Qed.

(** One more external call. *)
Lemma evolves_log (v : CatVideo RT) (w : World RT) (c : call) (g : rng RT) :
  evolves RT (v, w) (v, MkWorld RT (calls RT w ++ [c]) g).
Proof.
  split; [apply same_video_refl|]. simpl. now apply prefix_app_r.
Qed.

Lemma get_frame_time_evolves (t : float RT) (s : Obj RT) :
  evolves RT s (snd (get_frame_time RT exec t s)).
Proof.
  destruct s as [v w]. rewrite get_frame_time_unfold. apply evolves_log.
Qed.

Lemma set_pts_list_evolves (s : Obj RT) :
  evolves RT s (snd (set_pts_list RT exec s)).
Proof.
  destruct s as [v w]. rewrite set_pts_list_unfold.
  destruct (returncode _ =? 0); [|apply evolves_log].
  destruct (pts_of_matches RT _); [apply evolves_log|].
  split; [apply same_video_with_pts|]. simpl. now apply prefix_app_r.
Qed.

Lemma get_frame_num_evolves (i : Z) (s : Obj RT) :
  evolves RT s (snd (get_frame_num RT exec i s)).
Proof.
  destruct s as [v w]. destruct (pts_list RT v) as [l|] eqn:Hv.
  - rewrite (get_frame_num_cached RT exec i v w l Hv).
    destruct (index l i); [apply evolves_refl | apply get_frame_time_evolves].
  - rewrite (get_frame_num_fresh RT exec i v w Hv).
    pose proof (set_pts_list_evolves (v, w)) as H1.
    destruct (set_pts_list RT exec (v, w)) as [[e|[]] s1]; [exact H1|].
    simpl in H1. destruct (pts_list RT (fst s1)) as [l|]; [|exact H1].
    destruct (index l i); [exact H1|].
    eapply evolves_trans; [exact H1 | apply get_frame_time_evolves].
Qed.

(** [get_random_frame] leaves the whole object as it was. *)
Lemma get_random_frame_loop_object (fuel : nat) (s s' : Obj RT)
      (r : result (float RT * ndarray)) :
  get_random_frame_loop RT exec fuel s = Some (r, s') ->
  fst s' = fst s /\ calls RT (snd s) `prefix_of` calls RT (snd s').
Proof.
  revert s. induction fuel as [|fuel IH]; intros [v w]; simpl; [discriminate|].
  unfold mbind, world, self, np_random_random, mret. simpl.
  destruct (mt_random RT (np_state RT w)) as [x g]. simpl.
  rewrite get_frame_time_unfold. simpl.
  set (w1 := MkWorld RT _ g).
  assert (calls RT w `prefix_of` calls RT w1) as Hw by now apply prefix_app_r.
  destruct (returncode _ =? 0).
  - destruct (stdout _) as [|b out].
    + simpl. intros H. destruct (IH _ H) as [H1 H2]. simpl in *.
      split; [exact H1 | etransitivity; eassumption].
    + destruct (reshape _ _) as [e|a] eqn:E.
      * rewrite (reshape_error _ _ _ E). simpl.
        intros H. destruct (IH _ H) as [H1 H2]. simpl in *.
        split; [exact H1 | etransitivity; eassumption].
      * intros [= <- <-]. now split.
  - simpl. intros [= <- <-]. now split.
Qed.

Lemma get_random_frame_object (fuel : nat) (seed : option Z) (s s' : Obj RT)
      (r : result (float RT * ndarray)) :
  get_random_frame RT exec fuel seed s = Some (r, s') ->
  fst s' = fst s /\ calls RT (snd s) `prefix_of` calls RT (snd s').
Proof.
  destruct s as [v w]. unfold get_random_frame.
  destruct seed as [sd|]; simpl.
  - unfold world, np_random_seed. simpl.
    destruct ((0 <=? sd) && (sd <? 2 ^ 32)); simpl.
    + intros H. apply get_random_frame_loop_object in H. exact H.
    + intros [= <- <-]. now split.
  - unfold mret. simpl. apply get_random_frame_loop_object.
Qed.

(** The statements after the loop of [iter_all_frames] leave the state
    as it was. *)
Lemma collect_pts_state (p : process) (pipe_stderr : bool) (pipe : bytes) (s : Obj RT) :
  snd (collect_pts RT p pipe_stderr pipe s) = s.
Proof.
  unfold collect_pts, mbind, self, mret, mraise. simpl.
  destruct (bool_decide _); [|reflexivity].
  destruct pipe_stderr; simpl; [|reflexivity].
  destruct (0 <? _)%nat; reflexivity.
Qed.

Lemma iter_all_frames_next_evolves (g : frames_iter) (s : Obj RT) :
  evolves RT s (snd (iter_all_frames_next RT exec g s)).
Proof.
  assert (forall p e pipe s0,
             snd (iter_all_frames_turn RT p e pipe s0) = s0) as Hturn.
  { intros p e pipe s0. unfold iter_all_frames_turn.
    destruct (read_frame _ _ _); try reflexivity.
    pose proof (collect_pts_state p e rest s0) as H.
    destruct (collect_pts RT p e rest s0) as [[?|?] s1]; exact H. }
  destruct g as [|p e pipe|]; simpl.
  - unfold world, run_async, mbind, log, mret. simpl.
    rewrite Hturn. destruct s as [v w]. apply evolves_log.
  - rewrite Hturn. apply evolves_refl.
  - apply evolves_refl.
Qed.

Lemma drain_evolves (n : nat) (g : frames_iter) (s : Obj RT) :
  evolves RT s (snd (drain (iter_all_frames_next RT exec) n g s)).
Proof.
  revert g s. induction n as [|n IH]; intros g s; simpl; [apply evolves_refl|].
  pose proof (iter_all_frames_next_evolves g s) as H1.
  destruct (iter_all_frames_next RT exec g s) as [[[a| |e] g1] s1]; simpl in H1;
    try exact H1.
  specialize (IH g1 s1).
  destruct (drain (iter_all_frames_next RT exec) n g1 s1) as [[[l e] g2] s2].
  simpl in *. eapply evolves_trans; eassumption.
Qed.

Lemma call_method_evolves (m : method RT) (s s' : Obj RT) :
  call_method RT exec m s = Some s' -> evolves RT s s'.
Proof.
  destruct m as [|i|t|fuel seed|n]; simpl.
  - intros [= <-]. apply set_pts_list_evolves.
  - intros [= <-]. apply get_frame_num_evolves.
  - intros [= <-]. apply get_frame_time_evolves.
  - destruct (get_random_frame RT exec fuel seed s) as [[r s1]|] eqn:E; [|discriminate].
    simpl. intros [= <-]. destruct (get_random_frame_object _ _ _ _ _ E) as [H1 H2].
    split; [rewrite H1; apply same_video_refl | exact H2].
  - pose proof (drain_evolves n iter_all_frames s) as H.
    destruct (drain _ n _ s) as [[[l e] g] s1]. simpl in *.
    intros [= <-]. exact H.
Qed.

Lemma call_methods_evolves (ms : list (method RT)) (s s' : Obj RT) :
  call_methods RT exec ms s = Some s' -> evolves RT s s'.
Proof.
  revert s. induction ms as [|m ms IH]; intros s; simpl.
  - intros [= <-]. apply evolves_refl.
  - destruct (call_method RT exec m s) as [s1|] eqn:E; [|discriminate].
    intros H. eapply evolves_trans; [eapply call_method_evolves; exact E | now apply IH].
Qed.

End Frame.

(** C2, as the code has it.  One field holds a result of the decoder for
    later calls: [pts_list].  [set_pts_list] stores the timestamps it
    parsed, [get_frame_num] fetches them only while [pts_list] is [None]
    and afterwards reads the stored list.  Over any sequence of method
    calls every other field keeps its value, and the external calls made
    are only added to.  [get_frame_time] and [get_random_frame] leave the
    whole object as it was; every call of [get_frame_time] and of
    [set_pts_list] runs the decoder once. *)
Theorem only_pts_list_is_kept (RT : PyRuntime) (exec : ffmpeg_cmd -> process) :
  (forall (ms : list (method RT)) (s s' : Obj RT),
      call_methods RT exec ms s = Some s' ->
      same_video RT (fst s) (fst s') /\
      calls RT (snd s) `prefix_of` calls RT (snd s'))
  /\
  (forall (t : float RT) (v : CatVideo RT) (w : World RT),
      snd (get_frame_time RT exec t (v, w))
      = (v, MkWorld RT (calls RT w ++ [Run (get_frame_time_cmd RT v t) true false])
                    (np_state RT w)))
  /\
  (forall (fuel : nat) (seed : option Z) (s s' : Obj RT) r,
      get_random_frame RT exec fuel seed s = Some (r, s') -> fst s' = fst s)
  /\
  (forall (v : CatVideo RT) (w : World RT),
      calls RT (snd (snd (set_pts_list RT exec (v, w))))
      = (calls RT w ++ [Run (null_cmd (file RT v) (vsync RT v)) false true])%list
      /\
      (fst (set_pts_list RT exec (v, w)) = inr tt ->
       exists l, fst (snd (set_pts_list RT exec (v, w))) = with_pts RT v l))
  /\
  (forall (i : Z) (v : CatVideo RT) (w : World RT) (l : list (float RT)) (t : float RT),
      pts_list RT v = Some l ->
      index l i = inr t ->
      snd (get_frame_num RT exec i (v, w))
      = (v, MkWorld RT (calls RT w ++ [Run (get_frame_time_cmd RT v t) true false])
                    (np_state RT w)))
  /\
  (forall (i : Z) (v : CatVideo RT) (w : World RT),
      pts_list RT v = None ->
      (calls RT w ++ [Run (null_cmd (file RT v) (vsync RT v)) false true])%list
        `prefix_of` calls RT (snd (snd (get_frame_num RT exec i (v, w))))).
Proof.
  repeat apply conj.
  - intros ms s s' H. exact (call_methods_evolves RT exec ms s s' H).
  - intros t v w. now rewrite get_frame_time_unfold.
  - intros fuel seed s s' r H.
    exact (proj1 (get_random_frame_object RT exec fuel seed s s' r H)).
  - intros v w. split.
    + rewrite set_pts_list_unfold.
      destruct (returncode _ =? 0); [|reflexivity].
      destruct (pts_of_matches RT _); reflexivity.
    + intros H.
      destruct (set_pts_list_cases RT exec v w) as [(e & He & _) | (l & _ & Hl)].
      * rewrite He in H. discriminate.
      * now exists l.
  - intros i v w l t Hl Ht.
    rewrite (get_frame_num_cached RT exec i v w l Hl), Ht.
    now rewrite get_frame_time_unfold.
  - intros i v w Hv.
    rewrite (get_frame_num_fresh RT exec i v w Hv).
    assert (calls RT (snd (snd (set_pts_list RT exec (v, w))))
            = (calls RT w ++ [Run (null_cmd (file RT v) (vsync RT v)) false true])%list)
      as Hc.
    { rewrite set_pts_list_unfold.
      destruct (returncode _ =? 0); [|reflexivity].
      destruct (pts_of_matches RT _); reflexivity. }
    rewrite <- Hc.
    destruct (set_pts_list RT exec (v, w)) as [[e|[]] s1]; [reflexivity|].
    simpl. destruct (pts_list RT (fst s1)) as [l|]; [|reflexivity].
    destruct (index l i); [reflexivity|].
    apply (get_frame_time_evolves RT exec f s1).
Qed.

Lemma only_pts_list_is_kept_witness :
  same_video Examples.RT (Examples.video 2 2 None)
             (fst (snd (get_frame_num Examples.RT Examples.clip_2x2 0
                          (Examples.video 2 2 None, Examples.w0)))).
Proof.
  pose proof (only_pts_list_is_kept Examples.RT Examples.clip_2x2) as [H _].
  apply (H [GetFrameNum Examples.RT 0] (Examples.video 2 2 None, Examples.w0)).
  reflexivity.
Defined.

(** C2 as stated fails: [get_frame_num] stores the timestamps on the
    object, which had none after [__init__], and a second call reads them
    there: it runs the decoder once, for the frame, where the first call
    ran it twice. *)
Lemma get_frame_num_stores_pts_list :
  let s0 := (Examples.video 2 2 None, Examples.w0) in
  let s1 := snd (get_frame_num Examples.RT Examples.clip_2x2 0 s0) in
  let s2 := snd (get_frame_num Examples.RT Examples.clip_2x2 1 s1) in
  pts_list Examples.RT (fst s0) = None /\
  pts_list Examples.RT (fst s1)
  = Some [Examples.zero; Binary64.div (Binary64.of_Z 4) (Binary64.of_Z 100)] /\
  length (calls Examples.RT (snd s1)) = 2%nat /\
  length (calls Examples.RT (snd s2)) = 3%nat.
Proof.
  repeat split.
Qed.

(** ** Reading frames from the pipe *)

Section Chunks.
Variables w h : Z.
Hypothesis w_pos : 0 < w.
Hypothesis h_pos : 0 < h.

(** A whole chunk is there: it is the next frame. *)
Lemma read_frame_chunk (c rest : bytes) :
  Z.of_nat (length c) = w * h * 3 ->
  read_frame w h (c ++ rest) = Frame (NdArray [h; w; 3] c) rest.
Proof.
  intros Hc. unfold read_frame, read.
  assert ((w * h * 3 <? -1) = false) as -> by nia.
  assert ((w * h * 3 =? -1) = false) as -> by nia.
  simpl.
  assert (Z.to_nat (w * h * 3) = length c) as -> by lia.
  rewrite take_app_length, drop_app_length.
  destruct c as [|b c]; [simpl in Hc; nia|].
  rewrite reshape_frame by lia. unfold size, frombuffer. cbn [data].
  replace (h * w * 3) with (w * h * 3) by lia.
  rewrite <- Hc, Z.eqb_refl. reflexivity.
Qed.

(** Nothing is left: the stream has ended. *)
Lemma read_frame_end : read_frame w h [] = Eof [].
Proof.
  unfold read_frame, read.
  assert ((w * h * 3 <? -1) = false) as -> by nia.
  assert ((w * h * 3 =? -1) = false) as -> by nia.
  simpl. rewrite take_nil, drop_nil. reflexivity.
Qed.

(** Less than a chunk is left: [reshape] refuses it. *)
Lemma read_frame_short (tail : bytes) :
  tail <> [] ->
  Z.of_nat (length tail) < w * h * 3 ->
  read_frame w h tail = Error ValueError.
Proof.
  intros Hne Hlen. unfold read_frame, read.
  assert ((w * h * 3 <? -1) = false) as -> by nia.
  assert ((w * h * 3 =? -1) = false) as -> by nia.
  simpl. rewrite take_ge by lia.
  destruct tail as [|b tail]; [congruence|].
  rewrite reshape_frame by lia. unfold size, frombuffer. cbn [data].
  assert ((h * w * 3 =? Z.of_nat (length (b :: tail))) = false) as -> by lia.
  reflexivity.
Qed.

Lemma drain_ffmpeg_loop (RT : PyRuntime) (exec : ffmpeg_cmd -> process)
      (probe_of : string -> option json)
      (cs : list bytes) (tail : bytes) (fuel : nat) (w1 : World RT) :
  Forall (fun c => Z.of_nat (length c) = w * h * 3) cs ->
  Z.of_nat (length tail) < w * h * 3 ->
  (length cs < fuel)%nat ->
  drain (iter_all_frames_ffmpeg_next RT exec probe_of) fuel
        (FLoop w h (concat cs ++ tail)) w1
  = (frames_of w h cs, ending_of tail, FDone, w1).
Proof.
  intros Hcs Htail. revert fuel.
  induction Hcs as [|c cs Hc Hcs IH]; intros [|fuel] Hfuel; simpl in Hfuel; try lia.
  - simpl. unfold iter_all_frames_ffmpeg_turn.
    destruct tail as [|b tail'] eqn:E.
    + now rewrite read_frame_end.
    + now rewrite read_frame_short.
  - cbn [drain iter_all_frames_ffmpeg_next concat].
    unfold iter_all_frames_ffmpeg_turn.
    rewrite <- app_assoc, read_frame_chunk by exact Hc.
    rewrite IH by lia. reflexivity.
Qed.

Lemma drain_frames_loop (RT : PyRuntime) (exec : ffmpeg_cmd -> process)
      (p : process) (cs : list bytes) (fuel : nat)
      (v : CatVideo RT) (w1 : World RT) :
  width RT v = w -> height RT v = h ->
  pts_list RT v = None ->
  Re.finditer pts_time_bytes_re (stderr p) <> [] ->
  Forall (fun c => Z.of_nat (length c) = w * h * 3) cs ->
  (length cs < fuel)%nat ->
  drain (iter_all_frames_next RT exec) fuel (ILoop p true (concat cs ++ [])) (v, w1)
  = (frames_of w h cs, Failed NameError, IDone, (v, w1)).
Proof.
  intros Hw Hh Hpts Hfound Hcs. revert fuel.
  induction Hcs as [|c cs Hc Hcs IH]; intros [|fuel] Hfuel; simpl in Hfuel; try lia.
  - simpl. unfold iter_all_frames_turn. simpl. rewrite Hw, Hh, read_frame_end.
    unfold collect_pts, mbind, self, mret, mraise. simpl. rewrite Hpts. simpl.
    destruct (Re.finditer pts_time_bytes_re (stderr p)); [congruence|].
    reflexivity.
  - cbn [drain iter_all_frames_next concat].
    unfold iter_all_frames_turn. cbn [fst]. rewrite Hw, Hh.
    rewrite <- app_assoc, read_frame_chunk by exact Hc.
    rewrite IH by lia. reflexivity.
Qed.

End Chunks.

(** ** [iter_all_frames_ffmpeg] *)

Lemma iter_all_frames_ffmpeg_start_ok
      (RT : PyRuntime) (exec : ffmpeg_cmd -> process) (probe_of : string -> option json)
      (file : string) (vsync : Z) (w0 : World RT) (pr st : json) (w h : Z) :
  let cmd := rawvideo_cmd file [("vsync", AInt vsync); ("hide_banner", ANone)] in
  probe_of file = Some pr ->
  find_video_stream pr = inr (Some st) ->
  rbind (subscript st "width") (py_int RT) = inr w ->
  rbind (subscript st "height") (py_int RT) = inr h ->
  iter_all_frames_ffmpeg_start RT exec probe_of file vsync w0
  = (inr (w, h, stdout (exec cmd)),
     MkWorld RT (calls RT w0 ++ [Probe file; Run cmd true false]) (np_state RT w0)).
Proof.
  intros cmd Hpr Hst Hw Hh.
  unfold iter_all_frames_ffmpeg_start, mbind, probe, run_async, log, lift, mret.
  simpl. rewrite Hpr. simpl. rewrite Hst. simpl. rewrite Hw. simpl. rewrite Hh.
  simpl. rewrite <- app_assoc. reflexivity.
Qed.

(** C7, as the code has it.  For a probe whose first video stream has a
    positive width [w] and height [h], let the decoder's output be the
    chunks [cs] of [w*h*3] bytes each, followed by a [tail] shorter than
    that.  Each [next] takes one chunk off the stream and yields it as an
    array of shape (h, w, 3); the decoder is started by the first [next].
    A loop over the generator gets the frames of [cs] in order; it then
    ends normally when [tail] is empty, the read having returned no bytes,
    and with the [ValueError] of [reshape] when it is not. *)
Theorem iter_all_frames_ffmpeg_frames
        (RT : PyRuntime) (exec : ffmpeg_cmd -> process) (probe_of : string -> option json)
        (file : string) (vsync : Z) (w0 : World RT) (pr st : json) (w h : Z)
        (cs : list bytes) (tail : bytes) :
  let cmd := rawvideo_cmd file [("vsync", AInt vsync); ("hide_banner", ANone)] in
  let next := iter_all_frames_ffmpeg_next RT exec probe_of in
  probe_of file = Some pr ->
  find_video_stream pr = inr (Some st) ->
  rbind (subscript st "width") (py_int RT) = inr w ->
  rbind (subscript st "height") (py_int RT) = inr h ->
  0 < w -> 0 < h ->
  stdout (exec cmd) = (concat cs ++ tail)%list ->
  Forall (fun c => Z.of_nat (length c) = w * h * 3) cs ->
  Z.of_nat (length tail) < w * h * 3 ->
  (forall (c rest : bytes) (w1 : World RT),
      Z.of_nat (length c) = w * h * 3 ->
      next (FLoop w h (c ++ rest)) w1
      = (Yield (NdArray [h; w; 3] c), FLoop w h rest, w1))
  /\
  (forall w1 : World RT, next (FLoop w h []) w1 = (StopIteration, FDone, w1))
  /\
  (forall fuel : nat,
      (length cs < fuel)%nat ->
      drain next fuel (iter_all_frames_ffmpeg file vsync) w0
      = (frames_of w h cs, ending_of tail, FDone,
         MkWorld RT (calls RT w0 ++ [Probe file; Run cmd true false]) (np_state RT w0))).
Proof.
  intros cmd next Hpr Hst Hw Hh Hwpos Hhpos Hout Hcs Htail.
  subst next. repeat apply conj.
  - intros c rest w1 Hc. simpl. unfold iter_all_frames_ffmpeg_turn.
    now rewrite read_frame_chunk.
  - intros w1. simpl. unfold iter_all_frames_ffmpeg_turn.
    now rewrite read_frame_end.
  - intros fuel Hfuel.
    pose proof (drain_ffmpeg_loop w h Hwpos Hhpos RT exec probe_of cs tail fuel
                  (MkWorld RT (calls RT w0 ++ [Probe file; Run cmd true false])
                           (np_state RT w0)) Hcs Htail Hfuel) as Hloop.
    destruct fuel as [|fuel]; [lia|].
    cbn [drain] in Hloop |- *. unfold iter_all_frames_ffmpeg.
    cbn [iter_all_frames_ffmpeg_next] in Hloop |- *.
    rewrite (iter_all_frames_ffmpeg_start_ok RT exec probe_of file vsync w0 pr st w h
               Hpr Hst Hw Hh).
    fold cmd. rewrite Hout. exact Hloop.
Qed.

Lemma iter_all_frames_ffmpeg_frames_witness :
  drain (iter_all_frames_ffmpeg_next Examples.RT Examples.clip_2x2 Examples.probe_2x2)
        3 (iter_all_frames_ffmpeg "a.mp4" 0) Examples.w0
  = (frames_of 2 2 [Examples.frame_2x2; Examples.frame_2x2], Exhausted, FDone,
     MkWorld Examples.RT
       [Probe "a.mp4";
        Run (rawvideo_cmd "a.mp4" [("vsync", AInt 0); ("hide_banner", ANone)])
            true false] 0).
Proof.
  refine (proj2 (proj2
    (iter_all_frames_ffmpeg_frames Examples.RT Examples.clip_2x2 Examples.probe_2x2
       "a.mp4" 0 Examples.w0 _ _ 2 2 [Examples.frame_2x2; Examples.frame_2x2] []
       eq_refl eq_refl eq_refl eq_refl _ _ eq_refl _ _)) 3%nat _).
  - lia.
  - lia.
  - repeat constructor.
  - simpl. lia.
  - simpl. lia.
Defined.

(** C7 as stated fails when the stream ends inside a frame: the last read
    returns one byte, not none, and the generator stops there, raising the
    [ValueError] of [reshape]. *)
Lemma iter_all_frames_ffmpeg_cut_stream :
  fst (drain
         (iter_all_frames_ffmpeg_next Examples.RT Examples.cut_2x2 Examples.probe_2x2)
         3 (iter_all_frames_ffmpeg "a.mp4" 0) Examples.w0)
  = (frames_of 2 2 [Examples.frame_2x2], Failed ValueError, FDone)
  /\ read (2 * 2 * 3) (bytes_of_string "a") = inr (bytes_of_string "a", []).
Proof.
  split; reflexivity.
Qed.

(** ** [CatVideo.iter_all_frames] *)

(** C3 fails on the code.  For an object whose [pts_list] is [None], with
    a decoder output made of whole frames and a stderr in which the
    pattern is found at least once, a loop over the generator gets every
    frame and then ends with [NameError], raised where the list of
    timestamps is built from the unbound name [match_list]; [pts_list] is
    still [None] afterwards. *)
Theorem iter_all_frames_raises_NameError
        (RT : PyRuntime) (exec : ffmpeg_cmd -> process)
        (v : CatVideo RT) (w0 : World RT) (cs : list bytes) (fuel : nat) :
  let cmd := rawvideo_cmd (file RT v)
               [("vsync", AInt (vsync RT v)); ("hide_banner", ANone);
                ("loglevel", AStr (loglevel RT v))] in
  pts_list RT v = None ->
  0 < width RT v -> 0 < height RT v ->
  stdout (exec cmd) = concat cs ->
  Forall (fun c => Z.of_nat (length c) = width RT v * height RT v * 3) cs ->
  Re.finditer pts_time_bytes_re (stderr (exec cmd)) <> [] ->
  (length cs < fuel)%nat ->
  drain (iter_all_frames_next RT exec) fuel iter_all_frames (v, w0)
  = (frames_of (width RT v) (height RT v) cs, Failed NameError, IDone,
     (v, MkWorld RT (calls RT w0 ++ [Run cmd true true]) (np_state RT w0)))
  /\ pts_list RT v = None.
Proof.
  intros cmd Hpts Hw Hh Hout Hcs Hfound Hfuel. split; [|exact Hpts].
  pose proof (drain_frames_loop (width RT v) (height RT v) Hw Hh RT exec (exec cmd)
                cs fuel v
                (MkWorld RT (calls RT w0 ++ [Run cmd true true]) (np_state RT w0))
                eq_refl eq_refl Hpts Hfound Hcs Hfuel) as Hloop.
  destruct fuel as [|fuel]; [lia|].
  cbn [drain] in Hloop |- *. unfold iter_all_frames.
  cbn [iter_all_frames_next] in Hloop |- *.
  unfold world, run_async, mbind, log, mret. cbn [fst snd].
  rewrite Hpts. fold cmd. unfold ret. cbn iota beta.
  rewrite (bool_decide_eq_true_2 _ (eq_refl (@None (list (float RT))))).
  rewrite Hout. rewrite app_nil_r in Hloop. exact Hloop.
Qed.

Lemma iter_all_frames_raises_NameError_witness :
  drain (iter_all_frames_next Examples.RT Examples.clip_2x2) 3 iter_all_frames
        (Examples.video 2 2 None, Examples.w0)
  = (frames_of 2 2 [Examples.frame_2x2; Examples.frame_2x2], Failed NameError, IDone,
     (Examples.video 2 2 None,
      MkWorld Examples.RT
        [Run (rawvideo_cmd "a.mp4" [("vsync", AInt 0); ("hide_banner", ANone);
                                    ("loglevel", AStr "error")])
             true true] 0))
  /\ pts_list Examples.RT (Examples.video 2 2 None) = None.
Proof.
  apply (iter_all_frames_raises_NameError Examples.RT Examples.clip_2x2
           (Examples.video 2 2 None) Examples.w0
           [Examples.frame_2x2; Examples.frame_2x2] 3).
  - reflexivity.
  - simpl. lia.
  - simpl. lia.
  - reflexivity.
  - repeat constructor.
  - discriminate.
  - simpl. lia.
Defined.

(** ** [get_all_frames_ffmpeg] *)

(** The unknown first dimension is the number of whole frames. *)
Lemma reshape_frames (a : ndarray) (h w k : Z) :
  0 < h -> 0 < w ->
  size a = k * (h * w * 3) ->
  reshape a [-1; h; w; 3] = inr (NdArray [k; h; w; 3] (data a)).
Proof.
  intros Hh Hw Hk. unfold reshape, is_unknown. simpl.
  assert ((h <? -1) = false) as -> by lia.
  assert ((w <? -1) = false) as -> by lia.
  assert ((h =? -1) = false) as -> by lia.
  assert ((w =? -1) = false) as -> by lia.
  simpl. unfold prodZ. simpl.
  replace (h * (w * (3 * 1))) with (h * w * 3) by lia.
  assert (0 < h * w * 3) as Hpos by nia.
  assert ((h * w * 3 =? 0) = false) as -> by lia.
  rewrite Hk, Z.mod_mul, Z.div_mul by lia. reflexivity.
Qed.

(** [floats_of] converts every element, in order, or raises. *)
Lemma floats_of_Forall2 (RT : PyRuntime) {A} (conv : A -> option (float RT))
      (l : list A) (fs : list (float RT)) :
  floats_of RT conv l = inr fs ->
  Forall2 (fun x f => conv x = Some f) l fs.
Proof.
  revert fs. induction l as [|x l IH]; intros fs; simpl.
  - intros [= <-]. constructor.
  - destruct (conv x) as [f|] eqn:E; [|discriminate]. simpl.
    destruct (floats_of RT conv l) as [e|fs']; [discriminate|]. simpl.
    intros [= <-]. constructor; [exact E | now apply IH].
Qed.

(** C4, as the code has it.  When the probe has a video stream of positive
    width and height, the decoder run succeeds, its stderr decodes and
    every match converts, [get_all_frames_ffmpeg] returns the timestamps
    of the matches of the pattern in stderr, in order, and the output as
    [k] frames, [k] being the number of whole frames in the output.  The
    function compares the two counts nowhere: there is one timestamp for
    each frame exactly when the decoder logged as many timestamps as it
    wrote frames. *)
Theorem get_all_frames_ffmpeg_outcome
        (RT : PyRuntime) (exec : ffmpeg_cmd -> process) (probe_of : string -> option json)
        (file : string) (vsync : Z) (w0 : World RT) (pr st : json) (w h k : Z)
        (t : text) (ts : list (float RT)) :
  let p := exec (showinfo_cmd file vsync) in
  let found := Re.finditer (pts_time_re RT) t in
  probe_of file = Some pr ->
  find_video_stream pr = inr (Some st) ->
  rbind (subscript st "width") (py_int RT) = inr w ->
  rbind (subscript st "height") (py_int RT) = inr h ->
  0 < w -> 0 < h ->
  returncode p = 0 ->
  decode_utf8 (stderr p) = inr t ->
  present_times RT t = inr ts ->
  Z.of_nat (length (stdout p)) = k * (h * w * 3) ->
  fst (get_all_frames_ffmpeg RT exec probe_of file vsync w0)
  = inr (ts, NdArray [k; h; w; 3] (stdout p))
  /\
  Forall2 (fun m x =>
             float_of_text RT (skipn (String.length "pts_time:") (Re.group0 m)) = Some x)
          found ts
  /\
  (Z.of_nat (length ts) = k <-> Z.of_nat (length found) = k).
Proof.
  intros p found Hpr Hst Hw Hh Hwpos Hhpos Hrc Hdec Hts Hk.
  assert (Forall2 (fun m x =>
             float_of_text RT (skipn (String.length "pts_time:") (Re.group0 m)) = Some x)
            found ts) as HF.
  { unfold present_times in Hts. apply floats_of_Forall2 in Hts.
    apply Forall2_fmap_l in Hts. exact Hts. }
  repeat apply conj.
  - unfold get_all_frames_ffmpeg, mbind, probe, run, log, lift, mret, mraise.
    simpl. rewrite Hpr. simpl. rewrite Hst. simpl. rewrite Hw. simpl. rewrite Hh.
    simpl. fold p. rewrite Hrc. simpl. rewrite Hdec. simpl. rewrite Hts. simpl.
    rewrite (reshape_frames _ h w k) by assumption. reflexivity.
  - exact HF.
  - rewrite (Forall2_length _ _ _ HF). intros H. exact H.
  - rewrite (Forall2_length _ _ _ HF). intros H. exact H.
Qed.

Lemma get_all_frames_ffmpeg_outcome_witness :
  fst (get_all_frames_ffmpeg Examples.RT Examples.clip_2x2 Examples.probe_2x2
                             "a.mp4" 0 Examples.w0)
  = inr ([Examples.zero; Binary64.div (Binary64.of_Z 4) (Binary64.of_Z 100)],
         NdArray [2; 2; 2; 3] (Examples.frame_2x2 ++ Examples.frame_2x2)).
Proof.
  refine (proj1
    (get_all_frames_ffmpeg_outcome Examples.RT Examples.clip_2x2 Examples.probe_2x2
       "a.mp4" 0 Examples.w0 _ _ 2 2 2 _ _
       eq_refl eq_refl eq_refl eq_refl _ _ eq_refl eq_refl eq_refl eq_refl)); lia.
Defined.

(** C4 as stated fails when the decoder writes a frame that the filter
    did not log, as it does when it repeats a frame to keep a constant
    rate: two timestamps are returned with three frames. *)
Lemma get_all_frames_ffmpeg_counts_differ :
  fst (get_all_frames_ffmpeg Examples.RT Examples.dup_2x2 Examples.probe_2x2
                             "a.mp4" 1 Examples.w0)
  = inr ([Examples.zero; Binary64.div (Binary64.of_Z 4) (Binary64.of_Z 100)],
         NdArray [3; 2; 2; 3]
                 (Examples.frame_2x2 ++ Examples.frame_2x2 ++ Examples.frame_2x2)).
Proof.
  reflexivity.
Qed.

(** ** [CatVideo.__init__] *)

(** The stream the generator expression stops at is a dictionary. *)
Lemma first_video_obj (streams : list json) (st : json) :
  first_video streams = inr (Some st) -> exists m, st = JObj m.
Proof.
  induction streams as [|x l IH]; simpl; [discriminate|].
  destruct x as [z|t|l'|m]; simpl; try discriminate.
  destruct (m !! "codec_type") as [c|]; simpl; [|discriminate].
  destruct (is_str c "video").
  - intros [= <-]. now exists m.
  - exact IH.
Qed.

Lemma find_video_stream_obj (pr st : json) :
  find_video_stream pr = inr (Some st) -> exists m, st = JObj m.
Proof.
  unfold find_video_stream.
  destruct (subscript pr "streams") as [e|streams]; simpl; [discriminate|].
  destruct streams as [z|t|l|m]; try discriminate.
  - destruct (bool_decide (t = [])); discriminate.
  - apply first_video_obj.
  - destruct (bool_decide (m = ∅)); discriminate.
Qed.

Lemma bool_decide_is_Some {A} (o : option A) :
  bool_decide (is_Some o) = match o with Some _ => true | None => false end.
Proof.
  destruct o.
  - apply bool_decide_eq_true_2. now eexists.
  - apply bool_decide_eq_false_2. intros [? ?]. discriminate.
Qed.

(** When the tags are a dictionary, the sizes are exchanged exactly when
    its [rotate] entry is the string 90 or the string 270. *)
Lemma rotated_tags (m tags : gmap string json) :
  m !! "tags" = Some (JObj tags) ->
  rotated (JObj m)
  = inr (match tags !! "rotate" with
         | Some r => is_str r "90" || is_str r "270"
         | None => false
         end).
Proof.
  intros Ht. unfold rotated, contains, subscript, rbind, ret, of_option.
  rewrite bool_decide_is_Some, Ht, bool_decide_is_Some.
  destruct (tags !! "rotate") as [r|]; [|reflexivity].
  destruct (is_str r "90"); reflexivity.
Qed.

Lemma rotated_no_tags (m : gmap string json) :
  m !! "tags" = None -> rotated (JObj m) = inr false.
Proof.
  intros Ht. unfold rotated, contains, rbind, ret.
  rewrite bool_decide_is_Some, Ht. reflexivity.
Qed.

(** C8, as the code has it.  With a probe that succeeds: [__init__]
    raises [ValueError] when the probe has no video stream.  When the
    first video stream has a width and a height that [int] converts and a
    duration that [float] converts, it returns the object with these
    values, width and height exchanged exactly when the stream's tags
    have a [rotate] of 90 or 270, and with [pts_list] at [None].  When the
    stream has no duration, it raises [KeyError]. *)
Theorem init_outcome (RT : PyRuntime) (probe_of : string -> option json)
        (file : string) (vsync : Z) (loglevel : string) (w0 : World RT) (pr : json) :
  let w1 := MkWorld RT (calls RT w0 ++ [Probe file]) (np_state RT w0) in
  let r := init RT probe_of file vsync loglevel w0 in
  probe_of file = Some pr ->
  (find_video_stream pr = inr None -> r = (inl ValueError, w1))
  /\
  (forall (m : gmap string json) (w h : Z),
      find_video_stream pr = inr (Some (JObj m)) ->
      rbind (subscript (JObj m) "width") (py_int RT) = inr w ->
      rbind (subscript (JObj m) "height") (py_int RT) = inr h ->
      (forall (swap : bool) (d : float RT),
          rotated (JObj m) = inr swap ->
          rbind (subscript (JObj m) "duration") (py_float RT) = inr d ->
          r = (inr (MkCatVideo RT file (if swap then h else w) (if swap then w else h)
                               d vsync loglevel None), w1))
      /\
      (forall swap : bool,
          rotated (JObj m) = inr swap ->
          m !! "duration" = None ->
          r = (inl KeyError, w1))
      /\
      (m !! "tags" = None -> rotated (JObj m) = inr false)
      /\
      (forall tags : gmap string json,
          m !! "tags" = Some (JObj tags) ->
          rotated (JObj m)
          = inr (match tags !! "rotate" with
                 | Some x => is_str x "90" || is_str x "270"
                 | None => false
                 end)))
  /\
  (forall st : json,
      find_video_stream pr = inr (Some st) -> exists m, st = JObj m).
Proof.
  intros w1 r Hpr. subst r.
  unfold init, mbind, probe, log, lift, mret, mraise. simpl. rewrite Hpr. simpl.
  repeat apply conj.
  - intros Hst. rewrite Hst. reflexivity.
  - intros m w h Hst Hw Hh. rewrite Hst. simpl.
    simpl in Hw, Hh. rewrite Hw. simpl. rewrite Hh. simpl.
    repeat apply conj.
    + intros swap d Hrot Hd. rewrite Hrot. simpl. simpl in Hd. rewrite Hd. reflexivity.
    + intros swap Hrot Hd. rewrite Hrot. simpl. rewrite Hd. reflexivity.
    + apply rotated_no_tags.
    + apply rotated_tags.
  - intros st. apply find_video_stream_obj.
Qed.

Lemma init_outcome_witness :
  init Examples.RT Examples.probe_rotated "a.mp4" 0 "error" Examples.w0
  = (inr (MkCatVideo Examples.RT "a.mp4" 2 4
                     (Binary64.div (Binary64.of_Z 8) (Binary64.of_Z 100))
                     0 "error" None),
     MkWorld Examples.RT [Probe "a.mp4"] 0).
Proof.
  pose proof (init_outcome Examples.RT Examples.probe_rotated "a.mp4" 0 "error"
                Examples.w0 _ eq_refl) as (_ & H & _).
  edestruct H as (H1 & _); [reflexivity | reflexivity | reflexivity |].
  apply (H1 true); reflexivity.
Defined.

(** C8 as stated fails for a video stream without a duration: there is a
    video stream, and [__init__] sets nothing and raises [KeyError]. *)
Lemma init_without_duration :
  fst (init Examples.RT Examples.probe_no_duration "a.mkv" 0 "error" Examples.w0)
  = inl KeyError
  /\ (exists pr, Examples.probe_no_duration "a.mkv" = Some pr
                 /\ find_video_stream pr = inr (Some (JObj Examples.video_stream_2x2))).
Proof.
  split; [reflexivity|]. eexists. split; reflexivity.
Qed.

(** ** [CatVideo.get_random_frame] *)

Section RandomFrame.
Variable RT : PyRuntime.
Variable exec : ffmpeg_cmd -> process.


(** One turn of the loop. *)
Lemma get_random_frame_loop_turn (fuel : nat) (v : CatVideo RT) (w : World RT) :
  get_random_frame_loop RT exec (S fuel) (v, w) =
    let x := fst (mt_random RT (np_state RT w)) in
    let g := snd (mt_random RT (np_state RT w)) in
    let frame_time := fmul RT x (duration RT v) in
    let w1 := MkWorld RT (calls RT w ++ [Run (get_frame_time_cmd RT v frame_time) true false]) g in
    match fst (get_frame_time RT exec frame_time (v, w)) with
    | inr frame => Some (inr (frame_time, frame), (v, w1))
    | inl e =>
        if is_ValueError e then get_random_frame_loop RT exec fuel (v, w1)
        else Some (inl e, (v, w1))
    end.
Proof.
  cbn [get_random_frame_loop].
  unfold mbind, world, self, np_random_random, mret. cbn [fst snd].
  destruct (mt_random RT (np_state RT w)) as [x g]. cbn [fst snd ret].
  rewrite !get_frame_time_unfold. cbn [fst snd calls np_state].
  destruct (if returncode _ =? 0 then _ else _); reflexivity.
Qed.




End RandomFrame.




(** * Further properties *)

(** ** The module-level functions *)

(** What [get_pts_list] does, in one equation. *)
Lemma get_pts_list_unfold (RT : PyRuntime) (exec : ffmpeg_cmd -> process)
      (file : string) (vsync : Z) (w0 : World RT) :
  let cmd := null_cmd file vsync in
  get_pts_list RT exec file vsync w0 =
    (if returncode (exec cmd) =? 0 then
       rbind (decode_utf8 (stderr (exec cmd))) (present_times RT)
     else inl FfmpegError,
     MkWorld RT (calls RT w0 ++ [Run cmd false true]) (np_state RT w0)).
Proof.
  intros cmd. unfold get_pts_list, mbind, run, log, lift, mret, mraise.
  simpl. fold cmd.
  destruct (returncode (exec cmd) =? 0); [|reflexivity].
  simpl. destruct (decode_utf8 _); reflexivity.
Qed.

(** X1.  The timestamps of [get_all_frames_ffmpeg] are those of
    [get_pts_list]: when [get_all_frames_ffmpeg] returns and the run into
    the null muxer succeeds with the same stderr, [get_pts_list] returns
    the same list, after one decoder run that captures stderr only. *)
Theorem get_pts_list_same_timestamps
        (RT : PyRuntime) (exec : ffmpeg_cmd -> process) (probe_of : string -> option json)
        (file : string) (vsync : Z) (w0 w1 : World RT)
        (ts : list (float RT)) (frames : ndarray) :
  fst (get_all_frames_ffmpeg RT exec probe_of file vsync w0) = inr (ts, frames) ->
  returncode (exec (null_cmd file vsync)) = 0 ->
  stderr (exec (null_cmd file vsync)) = stderr (exec (showinfo_cmd file vsync)) ->
  get_pts_list RT exec file vsync w1
  = (inr ts,
     MkWorld RT (calls RT w1 ++ [Run (null_cmd file vsync) false true]) (np_state RT w1)).
Proof.
  intros Hall Hrc Herr. rewrite get_pts_list_unfold, Hrc, Herr. simpl.
  revert Hall.
  unfold get_all_frames_ffmpeg, mbind, probe, run, log, lift, mret, mraise. simpl.
  destruct (probe_of file) as [pr|]; simpl; [|discriminate].
  destruct (find_video_stream pr) as [e|vs]; simpl; [discriminate|].
  destruct (rbind (stream_field vs "width") (py_int RT)) as [e|w]; simpl; [discriminate|].
  destruct (rbind (stream_field vs "height") (py_int RT)) as [e|h]; simpl; [discriminate|].
  destruct (returncode (exec (showinfo_cmd file vsync)) =? 0); simpl; [|discriminate].
  destruct (decode_utf8 _) as [e|t]; simpl; [discriminate|].
  destruct (present_times RT t) as [e|ts']; simpl; [discriminate|].
  destruct (reshape _ _) as [e|fr]; simpl; [discriminate|].
  now intros [= -> _].
Qed.

Lemma get_pts_list_same_timestamps_witness :
  get_pts_list Examples.RT Examples.clip_2x2 "a.mp4" 0 Examples.w0
  = (inr [Examples.zero; Binary64.div (Binary64.of_Z 4) (Binary64.of_Z 100)],
     MkWorld Examples.RT [Run (null_cmd "a.mp4" 0) false true] 0).
Proof.
  apply (get_pts_list_same_timestamps Examples.RT Examples.clip_2x2 Examples.probe_2x2
           "a.mp4" 0 Examples.w0 Examples.w0 _
           (NdArray [2; 2; 2; 3] (Examples.frame_2x2 ++ Examples.frame_2x2)));
    reflexivity.
Defined.

(** X2.  Without a video stream in the probe, [get_all_frames_ffmpeg] and the
    first [next] of [iter_all_frames_ffmpeg] raise [TypeError], from the
    subscript of [None], and the decoder is not run: the probe is the
    only external call. *)
Theorem no_video_stream_is_TypeError
        (RT : PyRuntime) (exec : ffmpeg_cmd -> process) (probe_of : string -> option json)
        (file : string) (vsync : Z) (w0 : World RT) (pr : json) :
  let w1 := MkWorld RT (calls RT w0 ++ [Probe file]) (np_state RT w0) in
  probe_of file = Some pr ->
  find_video_stream pr = inr None ->
  get_all_frames_ffmpeg RT exec probe_of file vsync w0 = (inl TypeError, w1)
  /\
  iter_all_frames_ffmpeg_next RT exec probe_of (iter_all_frames_ffmpeg file vsync) w0
  = (Raised TypeError, FDone, w1).
Proof.
  intros w1 Hpr Hst. split.
  - unfold get_all_frames_ffmpeg, mbind, probe, log, lift. simpl.
    rewrite Hpr. simpl. rewrite Hst. reflexivity.
  - unfold iter_all_frames_ffmpeg. cbn [iter_all_frames_ffmpeg_next].
    unfold iter_all_frames_ffmpeg_start, mbind, probe, log, lift. simpl.
    rewrite Hpr. simpl. rewrite Hst. reflexivity.
Qed.

Lemma no_video_stream_is_TypeError_witness :
  get_all_frames_ffmpeg Examples.RT Examples.clip_2x2
    (fun _ => Some (JObj (<["streams" := JArr [Examples.audio_stream]]> ∅)))
    "a.mp3" 0 Examples.w0
  = (inl TypeError, MkWorld Examples.RT [Probe "a.mp3"] 0).
Proof.
  apply (no_video_stream_is_TypeError Examples.RT Examples.clip_2x2
           (fun _ => Some (JObj (<["streams" := JArr [Examples.audio_stream]]> ∅)))
           "a.mp3" 0 Examples.w0 _ eq_refl).
  vm_compute. reflexivity.
Defined.

(** X3.  The output of [get_all_frames_ffmpeg] must be whole frames: with a
    video stream of positive width and height, a decoder run that
    succeeds and timestamps that convert, an output whose length is not a
    multiple of height*width*3 makes the function raise [ValueError]. *)
Theorem get_all_frames_ffmpeg_partial_frame
        (RT : PyRuntime) (exec : ffmpeg_cmd -> process) (probe_of : string -> option json)
        (file : string) (vsync : Z) (w0 : World RT) (pr st : json) (w h : Z)
        (t : text) (ts : list (float RT)) :
  let p := exec (showinfo_cmd file vsync) in
  probe_of file = Some pr ->
  find_video_stream pr = inr (Some st) ->
  rbind (subscript st "width") (py_int RT) = inr w ->
  rbind (subscript st "height") (py_int RT) = inr h ->
  0 < w -> 0 < h ->
  returncode p = 0 ->
  decode_utf8 (stderr p) = inr t ->
  present_times RT t = inr ts ->
  Z.of_nat (length (stdout p)) mod (h * w * 3) <> 0 ->
  fst (get_all_frames_ffmpeg RT exec probe_of file vsync w0) = inl ValueError.
Proof.
  intros p Hpr Hst Hw Hh Hwpos Hhpos Hrc Hdec Hts Hmod.
  unfold get_all_frames_ffmpeg, mbind, probe, run, log, lift, mret, mraise.
  simpl. rewrite Hpr. simpl. rewrite Hst. simpl. rewrite Hw. simpl. rewrite Hh.
  simpl. fold p. rewrite Hrc. simpl. rewrite Hdec. simpl. rewrite Hts. simpl.
  unfold reshape, is_unknown. simpl.
  assert ((h <? -1) = false) as -> by lia.
  assert ((w <? -1) = false) as -> by lia.
  assert ((h =? -1) = false) as -> by lia.
  assert ((w =? -1) = false) as -> by lia.
  simpl. unfold prodZ, size. simpl.
  replace (h * (w * (3 * 1))) with (h * w * 3) by lia.
  assert ((h * w * 3 =? 0) = false) as -> by nia.
  apply Z.eqb_neq in Hmod. rewrite Hmod. reflexivity.
Qed.

Lemma get_all_frames_ffmpeg_partial_frame_witness :
  fst (get_all_frames_ffmpeg Examples.RT Examples.cut_2x2 Examples.probe_2x2
                             "a.mp4" 0 Examples.w0)
  = inl ValueError.
Proof.
  refine (get_all_frames_ffmpeg_partial_frame Examples.RT Examples.cut_2x2
            Examples.probe_2x2 "a.mp4" 0 Examples.w0 _ _ 2 2 _ _
            eq_refl eq_refl eq_refl eq_refl _ _ eq_refl eq_refl eq_refl _).
  - lia.
  - lia.
  - discriminate.
Defined.

(** ** More on the [CatVideo] methods *)

(** X4.  [set_pts_list] is all or nothing.  Either it returns, and [pts_list]
    is the list of the floats of the first group of every match found in
    stderr, in order, the other fields being as they were; or it raises
    [ffmpeg.Error] or [ValueError] and the object is as it was, with the
    list it had.  The [bytes] pattern needs no decoding of stderr. *)
Theorem set_pts_list_all_or_nothing
        (RT : PyRuntime) (exec : ffmpeg_cmd -> process)
        (v : CatVideo RT) (w : World RT) :
  let r := set_pts_list RT exec (v, w) in
  let found := Re.finditer pts_time_bytes_re
                 (stderr (exec (null_cmd (file RT v) (vsync RT v)))) in
  (fst r = inr tt /\
   exists l : list (float RT),
     fst (snd r) = with_pts RT v l /\
     Forall2 (fun m x => float_of_bytes RT (nth 0 (Re.groups m) []) = Some x) found l)
  \/
  (exists e : exn,
      fst r = inl e /\ (e = FfmpegError \/ e = ValueError) /\ fst (snd r) = v).
Proof.
  intros r found. subst r. rewrite set_pts_list_unfold. fold found.
  destruct (returncode _ =? 0).
  - destruct (pts_of_matches RT found) as [e|l] eqn:E.
    + right. exists e. split; [reflexivity|]. split; [|reflexivity].
      right. unfold pts_of_matches in E. clear -E.
      revert E. generalize (map (fun m => nth 0 (Re.groups m) []) found).
      intros gs. revert e. induction gs as [|g gs IH]; intros e; simpl; [discriminate|].
      destruct (float_of_bytes RT g); simpl; [|now intros [= <-]].
      destruct (floats_of RT (float_of_bytes RT) gs) as [e'|fs]; simpl; [|discriminate].
      intros [= <-]. now apply IH.
    + left. split; [reflexivity|]. exists l. split; [reflexivity|].
      unfold pts_of_matches in E. apply floats_of_Forall2 in E.
      apply Forall2_fmap_l in E. exact E.
  - right. exists FfmpegError. split; [reflexivity|]. split; [now left | reflexivity].
Qed.

(** X5.  [set_pts_list] computes the list anew: its outcome and the list it
    stores do not depend on the list stored before, nor on the calls made
    before.  A second call stores what the first stored. *)
Theorem set_pts_list_refresh
        (RT : PyRuntime) (exec : ffmpeg_cmd -> process)
        (v v' : CatVideo RT) (w w' : World RT) :
  same_video RT v v' ->
  fst (set_pts_list RT exec (v, w)) = fst (set_pts_list RT exec (v', w'))
  /\
  (fst (set_pts_list RT exec (v, w)) = inr tt ->
   fst (snd (set_pts_list RT exec (v, w))) = fst (snd (set_pts_list RT exec (v', w')))
   /\
   fst (snd (set_pts_list RT exec (snd (set_pts_list RT exec (v, w)))))
   = fst (snd (set_pts_list RT exec (v, w)))).
Proof.
  intros (Hf & Hw & Hh & Hd & Hv & Hl).
  assert (forall l, with_pts RT v l = with_pts RT v' l) as Hwith.
  { intros l. unfold with_pts. now rewrite Hf, Hw, Hh, Hd, Hv, Hl. }
  rewrite !set_pts_list_unfold. rewrite <- Hf, <- Hv.
  destruct (returncode _ =? 0) eqn:Hrc.
  - destruct (pts_of_matches RT _) as [e|l] eqn:E; cbn [fst snd].
    + split; [reflexivity | discriminate].
    + split; [reflexivity|]. intros _. split; [apply Hwith|].
      rewrite set_pts_list_unfold. cbn [file vsync with_pts].
      rewrite Hrc, E. reflexivity.
  - split; [reflexivity | discriminate].
Qed.

Lemma set_pts_list_refresh_witness :
  fst (set_pts_list Examples.RT Examples.clip_2x2
         (Examples.video 2 2 None, Examples.w0))
  = fst (set_pts_list Examples.RT Examples.clip_2x2
           (Examples.video 2 2 (Some [Examples.zero]), Examples.w0)).
Proof.
  apply (set_pts_list_refresh Examples.RT Examples.clip_2x2
           (Examples.video 2 2 None) (Examples.video 2 2 (Some [Examples.zero]))
           Examples.w0 Examples.w0).
  repeat split.
Defined.

Lemma index_invalid {A} (l : list A) (i : Z) :
  ~ (- Z.of_nat (length l) <= i < Z.of_nat (length l)) ->
  index l i = inl IndexError.
Proof.
  intros Hi. unfold index.
  assert ((0 <=? i) && (i <? Z.of_nat (length l)) = false) as -> by lia.
  assert ((- Z.of_nat (length l) <=? i) && (i <? 0) = false) as -> by lia.
  reflexivity.
Qed.

(** X6.  A position outside the list makes [get_frame_num] raise [IndexError]
    without fetching a frame.  When [pts_list] was [None] the timestamps
    have been fetched and stored all the same: the state left is the one
    [set_pts_list] leaves. *)
Theorem get_frame_num_out_of_range
        (RT : PyRuntime) (exec : ffmpeg_cmd -> process)
        (i : Z) (v : CatVideo RT) (w0 : World RT) (l : list (float RT)) :
  let s1 := if bool_decide (pts_list RT v = None)
            then snd (set_pts_list RT exec (v, w0))
            else (v, w0) in
  pts_list RT (fst s1) = Some l ->
  ~ (- Z.of_nat (length l) <= i < Z.of_nat (length l)) ->
  get_frame_num RT exec i (v, w0) = (inl IndexError, s1).
Proof.
  intros s1 Hl Hi. pose proof (index_invalid l i Hi) as Hidx. subst s1.
  destruct (pts_list RT v) as [l0|] eqn:Hv; simpl in *.
  - rewrite (get_frame_num_cached RT exec i v w0 l0 Hv).
    rewrite Hv in Hl. injection Hl as ->. now rewrite Hidx.
  - rewrite (get_frame_num_fresh RT exec i v w0 Hv).
    destruct (set_pts_list_cases RT exec v w0) as [(e & He & Hs) | (l' & He & Hs)].
    + rewrite Hs, Hv in Hl. discriminate.
    + destruct (set_pts_list RT exec (v, w0)) as [r s1]. simpl in *. subst r.
      rewrite Hl, Hidx. reflexivity.
Qed.

Lemma get_frame_num_out_of_range_witness :
  get_frame_num Examples.RT Examples.clip_2x2 2 (Examples.video 2 2 None, Examples.w0)
  = (inl IndexError,
     snd (set_pts_list Examples.RT Examples.clip_2x2
            (Examples.video 2 2 None, Examples.w0))).
Proof.
  apply (get_frame_num_out_of_range Examples.RT Examples.clip_2x2 2
           (Examples.video 2 2 None) Examples.w0
           [Examples.zero; Binary64.div (Binary64.of_Z 4) (Binary64.of_Z 100)]).
  - reflexivity.
  - simpl. lia.
Defined.

(** X7.  Positions count from the end as well: with the timestamps stored,
    [get_frame_num(i - n)] is [get_frame_num(i)] for every position [i]
    of a list of [n] timestamps. *)
Theorem get_frame_num_from_the_end
        (RT : PyRuntime) (exec : ffmpeg_cmd -> process)
        (i : Z) (v : CatVideo RT) (w0 : World RT) (l : list (float RT)) :
  pts_list RT v = Some l ->
  0 <= i < Z.of_nat (length l) ->
  get_frame_num RT exec (i - Z.of_nat (length l)) (v, w0)
  = get_frame_num RT exec i (v, w0).
Proof.
  intros Hl Hi. rewrite !(get_frame_num_cached RT exec _ v w0 l Hl).
  assert (index l (i - Z.of_nat (length l)) = index l i) as ->; [|reflexivity].
  unfold index.
  assert ((0 <=? i - Z.of_nat (length l))
          && (i - Z.of_nat (length l) <? Z.of_nat (length l)) = false) as -> by lia.
  assert ((- Z.of_nat (length l) <=? i - Z.of_nat (length l))
          && (i - Z.of_nat (length l) <? 0) = true) as -> by lia.
  assert ((0 <=? i) && (i <? Z.of_nat (length l)) = true) as -> by lia.
  now replace (i - Z.of_nat (length l) + Z.of_nat (length l)) with i by lia.
Qed.

Lemma get_frame_num_from_the_end_witness :
  get_frame_num Examples.RT Examples.clip_2x2 (1 - 2)
                (Examples.video 2 2 (Some [Examples.zero; Examples.zero]), Examples.w0)
  = get_frame_num Examples.RT Examples.clip_2x2 1
                  (Examples.video 2 2 (Some [Examples.zero; Examples.zero]), Examples.w0).
Proof.
  apply (get_frame_num_from_the_end Examples.RT Examples.clip_2x2 1
           (Examples.video 2 2 (Some [Examples.zero; Examples.zero])) Examples.w0
           [Examples.zero; Examples.zero]).
  - reflexivity.
  - simpl. lia.
Defined.

Lemma index_error {A} (l : list A) (i : Z) (e : exn) :
  index l i = inl e -> e = IndexError.
Proof.
  unfold index.
  destruct ((0 <=? i) && (i <? Z.of_nat (length l))).
  - destruct (l !! Z.to_nat i); [discriminate | now intros [= <-]].
  - destruct ((- Z.of_nat (length l) <=? i) && (i <? 0)); [|now intros [= <-]].
    destruct (l !! Z.to_nat (i + Z.of_nat (length l))); [discriminate | now intros [= <-]].
Qed.

Lemma get_frame_time_error (RT : PyRuntime) (exec : ffmpeg_cmd -> process)
      (t : float RT) (s : Obj RT) (e : exn) :
  fst (get_frame_time RT exec t s) = inl e -> e = FfmpegError \/ e = ValueError.
Proof.
  destruct s as [v w]. rewrite get_frame_time_unfold. cbn [fst].
  destruct (returncode _ =? 0); [|intros [= <-]; now left].
  destruct (stdout _); [intros [= <-]; now right|].
  intros H. right. exact (reshape_error _ _ _ H).
Qed.

Lemma set_pts_list_error (RT : PyRuntime) (exec : ffmpeg_cmd -> process)
      (s : Obj RT) (e : exn) :
  fst (set_pts_list RT exec s) = inl e -> e = FfmpegError \/ e = ValueError.
Proof.
  destruct s as [v w]. rewrite set_pts_list_unfold.
  destruct (returncode _ =? 0); [|intros [= <-]; now left].
  destruct (pts_of_matches RT _) as [e'|l] eqn:E; cbn [fst]; [|discriminate].
  intros [= <-]. right. unfold pts_of_matches in E. revert E.
  generalize (map (fun m => nth 0 (Re.groups m) [])
                  (Re.finditer pts_time_bytes_re
                     (stderr (exec (null_cmd (file RT v) (vsync RT v)))))).
  intros gs. revert e'. induction gs as [|g gs IH]; intros e'; simpl; [discriminate|].
  destruct (float_of_bytes RT g); simpl; [|now intros [= <-]].
  destruct (floats_of RT (float_of_bytes RT) gs) as [e''|fs]; simpl; [|discriminate].
  intros [= <-]. now apply IH.
Qed.

Lemma get_random_frame_loop_error (RT : PyRuntime) (exec : ffmpeg_cmd -> process)
      (fuel : nat) (s s' : Obj RT) (e : exn) :
  get_random_frame_loop RT exec fuel s = Some (inl e, s') -> e = FfmpegError.
Proof.
  revert s. induction fuel as [|fuel IH]; intros [v w]; [discriminate|].
  rewrite get_random_frame_loop_turn. cbv zeta.
  destruct (fst (get_frame_time RT exec _ (v, w))) as [e'|fr] eqn:E; [|discriminate].
  destruct (get_frame_time_error _ _ _ _ _ E) as [-> | ->]; cbn [is_ValueError].
  - now intros [= <- _].
  - apply IH.
Qed.

(** X8.  The exceptions of the methods.  [get_frame_time] raises nothing but
    [ffmpeg.Error] and [ValueError]; [get_frame_num] nothing but these and
    [IndexError], so the subscript of [pts_list] never meets [None];
    [get_random_frame] lets nothing through but [ffmpeg.Error], and the
    [ValueError] of [numpy.random.seed] for a seed out of range. *)
Theorem method_exceptions (RT : PyRuntime) (exec : ffmpeg_cmd -> process) :
  (forall (t : float RT) (s : Obj RT) (e : exn),
      fst (get_frame_time RT exec t s) = inl e -> e = FfmpegError \/ e = ValueError)
  /\
  (forall (i : Z) (s : Obj RT) (e : exn),
      fst (get_frame_num RT exec i s) = inl e ->
      e = FfmpegError \/ e = ValueError \/ e = IndexError)
  /\
  (forall (fuel : nat) (seed : option Z) (s s' : Obj RT) (e : exn),
      get_random_frame RT exec fuel seed s = Some (inl e, s') ->
      e = FfmpegError \/
      (e = ValueError /\ exists sd, seed = Some sd /\ ~ (0 <= sd < 2 ^ 32))).
Proof.
  repeat apply conj.
  - apply get_frame_time_error.
  - intros i [v w] e. destruct (pts_list RT v) as [l|] eqn:Hv.
    + rewrite (get_frame_num_cached RT exec i v w l Hv).
      destruct (index l i) as [e'|t] eqn:E; cbn [fst].
      * intros [= <-]. right. right. exact (index_error _ _ _ E).
      * intros H. destruct (get_frame_time_error _ _ _ _ _ H); auto.
    + rewrite (get_frame_num_fresh RT exec i v w Hv).
      pose proof (set_pts_list_error RT exec (v, w)) as Herr.
      destruct (set_pts_list_cases RT exec v w) as [(e' & He & Hs) | (l & He & Hs)].
      * destruct (set_pts_list RT exec (v, w)) as [r s1]. cbn [fst snd] in *. subst r.
        intros [= <-]. destruct (Herr e' eq_refl); auto.
      * destruct (set_pts_list RT exec (v, w)) as [r s1]. cbn [fst snd] in *. subst r.
        rewrite Hs. cbn [pts_list with_pts].
        destruct (index l i) as [e'|t] eqn:E; cbn [fst].
        -- intros [= <-]. right. right. exact (index_error _ _ _ E).
        -- intros H. destruct (get_frame_time_error _ _ _ _ _ H); auto.
  - intros fuel seed [v w] s' e. unfold get_random_frame.
    destruct seed as [sd|]; cbn [fst snd].
    + unfold world, np_random_seed. cbn [fst snd].
      destruct ((0 <=? sd) && (sd <? 2 ^ 32)) eqn:Hsd; cbn [fst snd ret raise].
      * intros H. left. exact (get_random_frame_loop_error _ _ _ _ _ _ H).
      * intros [= <- _]. right. split; [reflexivity|]. exists sd. split; [reflexivity|lia].
    + unfold mret. cbn [fst snd ret].
      intros H. left. exact (get_random_frame_loop_error _ _ _ _ _ _ H).
Qed.

Lemma method_exceptions_witness :
  IndexError = FfmpegError \/ IndexError = ValueError \/ IndexError = IndexError.
Proof.
  pose proof (method_exceptions Examples.RT Examples.clip_2x2) as (_ & H & _).
  apply (H 2 (Examples.video 2 2 None, Examples.w0)).
  reflexivity.
Defined.

(** ** More on [get_random_frame] *)

(** X9.  The loop ends only with a frame or an error of the decoder: when the
    decoder writes no frame at any timestamp, as for a file without
    frames, [get_random_frame] does not return, however many numbers it
    draws. *)
Theorem get_random_frame_never_returns
        (RT : PyRuntime) (exec : ffmpeg_cmd -> process)
        (v : CatVideo RT) (w : World RT) :
  (forall t : float RT,
      returncode (exec (get_frame_time_cmd RT v t)) = 0 /\
      stdout (exec (get_frame_time_cmd RT v t)) = []) ->
  forall fuel : nat,
    get_random_frame RT exec fuel None (v, w) = None /\
    forall seed : Z,
      0 <= seed < 2 ^ 32 ->
      get_random_frame RT exec fuel (Some seed) (v, w) = None.
Proof.
  intros Hblank fuel.
  assert (forall w1, get_random_frame_loop RT exec fuel (v, w1) = None) as Hloop.
  { induction fuel as [|fuel IH]; intros w1; [reflexivity|].
    rewrite get_random_frame_loop_turn. cbv zeta.
    rewrite get_frame_time_unfold. cbn [fst].
    destruct (Hblank (fmul RT (fst (mt_random RT (np_state RT w1))) (duration RT v)))
      as [-> ->].
    cbn. apply IH. }
  split.
  - unfold get_random_frame, mret. cbn [fst snd ret]. apply Hloop.
  - intros seed Hseed. unfold get_random_frame, world, np_random_seed. cbn [fst snd].
    assert ((0 <=? seed) && (seed <? 2 ^ 32) = true) as -> by lia.
    cbn [fst snd ret]. apply Hloop.
Qed.

Lemma get_random_frame_never_returns_witness :
  get_random_frame Examples.RT Examples.blank 5 None
                   (Examples.video 2 2 None, Examples.w0) = None.
Proof.
  apply (get_random_frame_never_returns Examples.RT Examples.blank
           (Examples.video 2 2 None) Examples.w0).
  intros t. split; reflexivity.
Defined.

Lemma nth_draw_succ (RT : PyRuntime) (k : nat) (g : rng RT) :
  nth_draw RT (S k) g = nth_draw RT k (snd (mt_random RT g)).
Proof. reflexivity. Qed.

Lemma get_random_frame_loop_runs (RT : PyRuntime) (exec : ffmpeg_cmd -> process)
      (fuel : nat) (v : CatVideo RT) (w : World RT) r (s' : Obj RT) :
  get_random_frame_loop RT exec fuel (v, w) = Some (r, s') ->
  exists k : nat,
    (k < fuel)%nat /\
    np_state RT (snd s') = nth_state RT (S k) (np_state RT w) /\
    calls RT (snd s')
    = (calls RT w
         ++ map (fun j =>
                   Run (get_frame_time_cmd RT v
                          (fmul RT (nth_draw RT j (np_state RT w)) (duration RT v)))
                       true false)
                (seq 0 (S k)))%list.
Proof.
  revert w. induction fuel as [|fuel IH]; intros w; [discriminate|].
  rewrite get_random_frame_loop_turn. cbv zeta.
  set (ft := fmul RT (fst (mt_random RT (np_state RT w))) (duration RT v)).
  set (w1 := MkWorld RT _ _).
  assert (exists k : nat,
             (k < S fuel)%nat /\
             np_state RT w1 = nth_state RT (S k) (np_state RT w) /\
             calls RT w1
             = (calls RT w
                  ++ map (fun j =>
                            Run (get_frame_time_cmd RT v
                                   (fmul RT (nth_draw RT j (np_state RT w)) (duration RT v)))
                                true false)
                         (seq 0 (S k)))%list) as Hone.
  { exists 0%nat. split; [lia|]. split; reflexivity. }
  destruct (fst (get_frame_time RT exec ft (v, w))) as [e|fr].
  - destruct (is_ValueError e).
    + intros H. destruct (IH _ H) as (k & Hk & Hg & Hc).
      exists (S k). split; [lia|]. split; [exact Hg|].
      rewrite Hc. subst w1. cbn [calls np_state].
      rewrite <- app_assoc. f_equal.
      change (seq 0 (S (S k))) with (0%nat :: seq 1 (S k)).
      rewrite <- seq_shift, map_cons, map_map. reflexivity.
    + intros [= <- <-]. exact Hone.
  - intros [= <- <-]. exact Hone.
Qed.

(** X10.  One decoder run for each number drawn.  When [get_random_frame]
    returns or raises after a seed in range or without a seed, it has
    drawn [k + 1] numbers for some [k] below the bound on the turns of the
    loop: the generator has moved on by [k + 1] draws from the seeded
    state, or from the state it was in when there is no seed, and the
    external calls made are the [k + 1] frame fetches at the products of
    the draws and the duration, in order. *)
Theorem get_random_frame_runs
        (RT : PyRuntime) (exec : ffmpeg_cmd -> process)
        (fuel : nat) (seed : option Z) (v : CatVideo RT) (w : World RT)
        r (s' : Obj RT) :
  let g0 := match seed with
            | Some sd => mt_seed RT sd
            | None => np_state RT w
            end in
  match seed with
  | Some sd => 0 <= sd < 2 ^ 32
  | None => True
  end ->
  get_random_frame RT exec fuel seed (v, w) = Some (r, s') ->
  exists k : nat,
    (k < fuel)%nat /\
    np_state RT (snd s') = nth_state RT (S k) g0 /\
    calls RT (snd s')
    = (calls RT w
         ++ map (fun j =>
                   Run (get_frame_time_cmd RT v
                          (fmul RT (nth_draw RT j g0) (duration RT v)))
                       true false)
                (seq 0 (S k)))%list.
Proof.
  intros g0 Hseed. unfold get_random_frame.
  destruct seed as [sd|]; cbn [fst snd].
  - unfold world, np_random_seed. cbn [fst snd].
    assert ((0 <=? sd) && (sd <? 2 ^ 32) = true) as -> by lia.
    cbn [fst snd ret]. intros H.
    exact (get_random_frame_loop_runs RT exec _ _ _ _ _ H).
  - unfold mret. cbn [fst snd ret]. intros H.
    exact (get_random_frame_loop_runs RT exec _ _ _ _ _ H).
Qed.

Lemma get_random_frame_runs_witness :
  exists (k : nat) (s' : Obj Examples.RT),
    (k < 3)%nat /\
    np_state Examples.RT (snd s') = nth_state Examples.RT (S k) 7 /\
    length (calls Examples.RT (snd s')) = S k.
Proof.
  edestruct (get_random_frame_runs Examples.RT Examples.clip_2x2 3 (Some 7)
               (Examples.video 2 2 None) Examples.w0) as (k & Hk & Hg & Hc).
  - simpl. lia.
  - reflexivity.
  - exists k. eexists. split; [exact Hk|]. split; [exact Hg|].
    rewrite Hc, length_app, length_map, length_seq. reflexivity.
Defined.

(** ** More on the generators *)

Section MoreChunks.
Variables w h : Z.
Hypothesis w_pos : 0 < w.
Hypothesis h_pos : 0 < h.

Lemma drain_frames_loop_any (RT : PyRuntime) (exec : ffmpeg_cmd -> process)
      (p : process) (pipe_stderr : bool) (cs : list bytes) (tail : bytes) (fuel : nat)
      (v : CatVideo RT) (w1 : World RT) :
  width RT v = w -> height RT v = h ->
  Forall (fun c => Z.of_nat (length c) = w * h * 3) cs ->
  Z.of_nat (length tail) < w * h * 3 ->
  (length cs < fuel)%nat ->
  drain (iter_all_frames_next RT exec) fuel
        (ILoop p pipe_stderr (concat cs ++ tail)) (v, w1)
  = (frames_of w h cs, frames_ending RT p pipe_stderr tail (v, w1), IDone, (v, w1)).
Proof.
  intros Hw Hh Hcs Htail. revert fuel.
  induction Hcs as [|c cs Hc Hcs IH]; intros [|fuel] Hfuel; simpl in Hfuel; try lia.
  - cbn [drain iter_all_frames_next concat app].
    unfold iter_all_frames_turn. cbn [fst]. rewrite Hw, Hh.
    destruct tail as [|b tail'] eqn:E.
    + rewrite (read_frame_end w h w_pos h_pos). cbn [frames_ending].
      pose proof (collect_pts_state RT p pipe_stderr [] (v, w1)) as Hs.
      destruct (collect_pts RT p pipe_stderr [] (v, w1)) as [[e|u] s1].
      * cbn [fst snd] in *. now subst s1.
      * cbn [fst snd] in *. now subst s1.
    + rewrite (read_frame_short w h w_pos h_pos) by (congruence || exact Htail).
      reflexivity.
  - cbn [drain iter_all_frames_next concat].
    unfold iter_all_frames_turn. cbn [fst]. rewrite Hw, Hh.
    rewrite <- app_assoc, (read_frame_chunk w h w_pos h_pos) by exact Hc.
    rewrite IH by lia. reflexivity.
Qed.

(** Taking [n] frames from the loop of [iter_all_frames_ffmpeg] leaves
    the rest of the stream unread. *)
Lemma drain_ffmpeg_loop_take (RT : PyRuntime) (exec : ffmpeg_cmd -> process)
      (probe_of : string -> option json)
      (cs : list bytes) (tail : bytes) (n : nat) (w1 : World RT) :
  Forall (fun c => Z.of_nat (length c) = w * h * 3) cs ->
  (n <= length cs)%nat ->
  drain (iter_all_frames_ffmpeg_next RT exec probe_of) n
        (FLoop w h (concat cs ++ tail)) w1
  = (frames_of w h (take n cs), OutOfFuel, FLoop w h (concat (drop n cs) ++ tail), w1).
Proof.
  intros Hcs. revert n.
  induction Hcs as [|c cs Hc Hcs IH]; intros [|n] Hn; simpl in Hn; try lia;
    try reflexivity.
  cbn [drain iter_all_frames_ffmpeg_next concat take drop].
  unfold iter_all_frames_ffmpeg_turn.
  rewrite <- app_assoc, (read_frame_chunk w h w_pos h_pos) by exact Hc.
  rewrite IH by lia. reflexivity.
Qed.

End MoreChunks.

Lemma drain_frames_start (RT : PyRuntime) (exec : ffmpeg_cmd -> process)
      (fuel : nat) (v : CatVideo RT) (w0 : World RT) :
  let cmd := rawvideo_cmd (file RT v)
               [("vsync", AInt (vsync RT v)); ("hide_banner", ANone);
                ("loglevel", AStr (loglevel RT v))] in
  let e := bool_decide (pts_list RT v = None) in
  drain (iter_all_frames_next RT exec) (S fuel) iter_all_frames (v, w0)
  = drain (iter_all_frames_next RT exec) (S fuel)
          (ILoop (exec cmd) e (stdout (exec cmd)))
          (v, MkWorld RT (calls RT w0 ++ [Run cmd true e]) (np_state RT w0)).
Proof.
  reflexivity.
Qed.

(** X11.  [iter_all_frames] runs to its end without raising when the
    timestamps are already stored, and when they are not but the
    pattern is found nowhere in stderr: for an output of whole frames the
    loop gets every frame, and the object is as it was, [pts_list]
    included.  Stderr is piped only in the second case. *)
Theorem iter_all_frames_completes
        (RT : PyRuntime) (exec : ffmpeg_cmd -> process)
        (v : CatVideo RT) (w0 : World RT) (cs : list bytes) (fuel : nat) :
  let cmd := rawvideo_cmd (file RT v)
               [("vsync", AInt (vsync RT v)); ("hide_banner", ANone);
                ("loglevel", AStr (loglevel RT v))] in
  0 < width RT v -> 0 < height RT v ->
  stdout (exec cmd) = concat cs ->
  Forall (fun c => Z.of_nat (length c) = width RT v * height RT v * 3) cs ->
  pts_list RT v <> None \/ Re.finditer pts_time_bytes_re (stderr (exec cmd)) = [] ->
  (length cs < fuel)%nat ->
  drain (iter_all_frames_next RT exec) fuel iter_all_frames (v, w0)
  = (frames_of (width RT v) (height RT v) cs, Exhausted, IDone,
     (v, MkWorld RT (calls RT w0
                       ++ [Run cmd true (bool_decide (pts_list RT v = None))])
                    (np_state RT w0))).
Proof.
  intros cmd Hw Hh Hout Hcs Hok Hfuel.
  destruct fuel as [|fuel]; [lia|].
  rewrite drain_frames_start. fold cmd. rewrite Hout.
  rewrite <- (app_nil_r (concat cs)).
  rewrite (drain_frames_loop_any (width RT v) (height RT v) Hw Hh RT exec)
    by (reflexivity || assumption || (simpl; lia)).
  f_equal. f_equal. f_equal.
  unfold frames_ending, collect_pts, mbind, self, mret, mraise, ret. cbn [fst snd].
  destruct (pts_list RT v) as [l|] eqn:Hv.
  - rewrite !bool_decide_eq_false_2 by discriminate. reflexivity.
  - destruct Hok as [Hok|Hok]; [congruence|].
    rewrite !bool_decide_eq_true_2 by reflexivity.
    cbn [communicate piped snd]. rewrite Hok. reflexivity.
Qed.

Lemma iter_all_frames_completes_witness :
  drain (iter_all_frames_next Examples.RT Examples.clip_2x2) 3 iter_all_frames
        (Examples.video 2 2 (Some []), Examples.w0)
  = (frames_of 2 2 [Examples.frame_2x2; Examples.frame_2x2], Exhausted, IDone,
     (Examples.video 2 2 (Some []),
      MkWorld Examples.RT
        [Run (rawvideo_cmd "a.mp4" [("vsync", AInt 0); ("hide_banner", ANone);
                                    ("loglevel", AStr "error")])
             true false] 0)).
Proof.
  apply (iter_all_frames_completes Examples.RT Examples.clip_2x2
           (Examples.video 2 2 (Some [])) Examples.w0
           [Examples.frame_2x2; Examples.frame_2x2] 3).
  - simpl. lia.
  - simpl. lia.
  - reflexivity.
  - repeat constructor.
  - left. discriminate.
  - simpl. lia.
Defined.

(** X12.  The two generators yield the same frames.  When the object has the
    positive width and height of the probe's video stream and the decoder
    writes the same output for both command lines, a loop over
    [CatVideo.iter_all_frames] and a loop over [iter_all_frames_ffmpeg]
    get the same frames, however each of them ends. *)
Theorem generators_yield_same_frames
        (RT : PyRuntime) (exec : ffmpeg_cmd -> process) (probe_of : string -> option json)
        (v : CatVideo RT) (w0 w1 : World RT) (pr st : json)
        (cs : list bytes) (tail : bytes) (fuel : nat) :
  let cmd_v := rawvideo_cmd (file RT v)
                 [("vsync", AInt (vsync RT v)); ("hide_banner", ANone);
                  ("loglevel", AStr (loglevel RT v))] in
  let cmd_f := rawvideo_cmd (file RT v)
                 [("vsync", AInt (vsync RT v)); ("hide_banner", ANone)] in
  probe_of (file RT v) = Some pr ->
  find_video_stream pr = inr (Some st) ->
  rbind (subscript st "width") (py_int RT) = inr (width RT v) ->
  rbind (subscript st "height") (py_int RT) = inr (height RT v) ->
  0 < width RT v -> 0 < height RT v ->
  stdout (exec cmd_v) = (concat cs ++ tail)%list ->
  stdout (exec cmd_f) = (concat cs ++ tail)%list ->
  Forall (fun c => Z.of_nat (length c) = width RT v * height RT v * 3) cs ->
  Z.of_nat (length tail) < width RT v * height RT v * 3 ->
  (length cs < fuel)%nat ->
  fst (fst (fst (drain (iter_all_frames_next RT exec) fuel iter_all_frames (v, w0))))
  = fst (fst (fst (drain (iter_all_frames_ffmpeg_next RT exec probe_of) fuel
                         (iter_all_frames_ffmpeg (file RT v) (vsync RT v)) w1)))
  /\
  fst (fst (fst (drain (iter_all_frames_next RT exec) fuel iter_all_frames (v, w0))))
  = frames_of (width RT v) (height RT v) cs.
Proof.
  intros cmd_v cmd_f Hpr Hst Hw Hh Hwpos Hhpos Hv Hf Hcs Htail Hfuel.
  destruct fuel as [|fuel]; [lia|].
  assert (fst (fst (fst (drain (iter_all_frames_next RT exec) (S fuel)
                               iter_all_frames (v, w0))))
          = frames_of (width RT v) (height RT v) cs) as Hleft.
  { rewrite drain_frames_start. fold cmd_v. rewrite Hv.
    rewrite (drain_frames_loop_any (width RT v) (height RT v) Hwpos Hhpos RT exec)
      by (reflexivity || assumption).
    reflexivity. }
  split; [|exact Hleft]. rewrite Hleft.
  pose proof (drain_ffmpeg_loop (width RT v) (height RT v) Hwpos Hhpos RT exec probe_of
                cs tail (S fuel)
                (MkWorld RT (calls RT w1 ++ [Probe (file RT v); Run cmd_f true false])
                         (np_state RT w1)) Hcs Htail Hfuel) as Hloop.
  cbn [drain] in Hloop |- *. unfold iter_all_frames_ffmpeg.
  cbn [iter_all_frames_ffmpeg_next] in Hloop |- *.
  rewrite (iter_all_frames_ffmpeg_start_ok RT exec probe_of (file RT v) (vsync RT v) w1
             pr st (width RT v) (height RT v) Hpr Hst Hw Hh).
  fold cmd_f. rewrite Hf, Hloop. reflexivity.
Qed.

Lemma generators_yield_same_frames_witness :
  fst (fst (fst (drain (iter_all_frames_next Examples.RT Examples.clip_2x2) 3
                       iter_all_frames (Examples.video 2 2 None, Examples.w0))))
  = frames_of 2 2 [Examples.frame_2x2; Examples.frame_2x2].
Proof.
  refine (proj2 (generators_yield_same_frames Examples.RT Examples.clip_2x2
                   Examples.probe_2x2 (Examples.video 2 2 None) Examples.w0 Examples.w0
                   _ _ [Examples.frame_2x2; Examples.frame_2x2] [] 3
                   eq_refl _ _ _ _ _ eq_refl eq_refl _ _ _)).
  - vm_compute. reflexivity.
  - reflexivity.
  - reflexivity.
  - simpl. lia.
  - simpl. lia.
  - repeat constructor.
  - simpl. lia.
  - simpl. lia.
Defined.

(** X13.  [iter_all_frames_ffmpeg] is lazy.  A generator that is not advanced
    makes no external call; taking [n] frames, for an [n] from one to the
    number of whole frames, probes the file and starts the decoder once,
    yields the first [n] frames and leaves the rest of the stream
    unread. *)
Theorem iter_all_frames_ffmpeg_take
        (RT : PyRuntime) (exec : ffmpeg_cmd -> process) (probe_of : string -> option json)
        (file : string) (vsync : Z) (w0 : World RT) (pr st : json) (w h : Z)
        (cs : list bytes) (tail : bytes) (n : nat) :
  let cmd := rawvideo_cmd file [("vsync", AInt vsync); ("hide_banner", ANone)] in
  let next := iter_all_frames_ffmpeg_next RT exec probe_of in
  probe_of file = Some pr ->
  find_video_stream pr = inr (Some st) ->
  rbind (subscript st "width") (py_int RT) = inr w ->
  rbind (subscript st "height") (py_int RT) = inr h ->
  0 < w -> 0 < h ->
  stdout (exec cmd) = (concat cs ++ tail)%list ->
  Forall (fun c => Z.of_nat (length c) = w * h * 3) cs ->
  (0 < n <= length cs)%nat ->
  drain next 0 (iter_all_frames_ffmpeg file vsync) w0
  = ([], OutOfFuel, iter_all_frames_ffmpeg file vsync, w0)
  /\
  drain next n (iter_all_frames_ffmpeg file vsync) w0
  = (frames_of w h (take n cs), OutOfFuel,
     FLoop w h (concat (drop n cs) ++ tail),
     MkWorld RT (calls RT w0 ++ [Probe file; Run cmd true false]) (np_state RT w0)).
Proof.
  intros cmd next Hpr Hst Hw Hh Hwpos Hhpos Hout Hcs Hn.
  split; [reflexivity|]. subst next.
  pose proof (drain_ffmpeg_loop_take w h Hwpos Hhpos RT exec probe_of cs tail n
                (MkWorld RT (calls RT w0 ++ [Probe file; Run cmd true false])
                         (np_state RT w0)) Hcs (proj2 Hn)) as Hloop.
  destruct n as [|n]; [lia|].
  cbn [drain] in Hloop |- *. unfold iter_all_frames_ffmpeg.
  cbn [iter_all_frames_ffmpeg_next] in Hloop |- *.
  rewrite (iter_all_frames_ffmpeg_start_ok RT exec probe_of file vsync w0 pr st w h
             Hpr Hst Hw Hh).
  fold cmd. rewrite Hout. exact Hloop.
Qed.

Lemma iter_all_frames_ffmpeg_take_witness :
  drain (iter_all_frames_ffmpeg_next Examples.RT Examples.clip_2x2 Examples.probe_2x2)
        1 (iter_all_frames_ffmpeg "a.mp4" 0) Examples.w0
  = (frames_of 2 2 [Examples.frame_2x2], OutOfFuel,
     FLoop 2 2 Examples.frame_2x2,
     MkWorld Examples.RT
       [Probe "a.mp4";
        Run (rawvideo_cmd "a.mp4" [("vsync", AInt 0); ("hide_banner", ANone)])
            true false] 0).
Proof.
  refine (proj2
    (iter_all_frames_ffmpeg_take Examples.RT Examples.clip_2x2 Examples.probe_2x2
       "a.mp4" 0 Examples.w0 _ _ 2 2 [Examples.frame_2x2; Examples.frame_2x2] [] 1
       eq_refl _ _ _ _ _ eq_refl _ _)).
  - vm_compute. reflexivity.
  - reflexivity.
  - reflexivity.
  - lia.
  - lia.
  - repeat constructor.
  - simpl. lia.
Defined.

(** ** What the patterns match *)

Section MatcherFacts.
Context {A : Type}.

Lemma match_here_one (p : A -> bool) (re : Re.pattern A) (s : list A) (pos : nat) r :
  Re.match_here (Re.One p :: re) s pos = Some r ->
  exists c s', s = c :: s' /\ p c = true /\ Re.match_here re s' (S pos) = Some r.
Proof.
  destruct s as [|c s']; simpl; [discriminate|].
  destruct (p c) eqn:E; [|discriminate].
  intros H. now exists c, s'.
Qed.

Lemma match_here_mark (re : Re.pattern A) (s : list A) (pos e : nat) (ms : list nat) :
  Re.match_here (Re.Mark :: re) s pos = Some (e, ms) ->
  exists ms', ms = pos :: ms' /\ Re.match_here re s pos = Some (e, ms').
Proof.
  simpl. destruct (Re.match_here re s pos) as [[e' ms']|]; [|discriminate].
  intros [= <- <-]. now exists ms'.
Qed.

(** A star takes a run of characters of its class. *)
Lemma match_here_star (p : A -> bool) (re : Re.pattern A) (s : list A) (pos : nat) r :
  Re.match_here (Re.Star p :: re) s pos = Some r ->
  exists k : nat,
    (k <= length s)%nat /\
    forallb p (take k s) = true /\
    Re.match_here re (drop k s) (pos + k) = Some r.
Proof.
  revert pos. induction s as [|c s IH]; intros pos; simpl.
  - intros H. exists 0%nat. rewrite Nat.add_0_r. now split.
  - assert (Re.match_here re (c :: s) pos = Some r ->
            exists k : nat,
              (k <= S (length s))%nat /\
              forallb p (take k (c :: s)) = true /\
              Re.match_here re (drop k (c :: s)) (pos + k) = Some r) as Hstop.
    { intros H. exists 0%nat. rewrite Nat.add_0_r. split; [lia|]. now split. }
    destruct (p c) eqn:Ec; [|exact Hstop].
    match goal with
    | |- match ?x with Some _ => _ | None => _ end = _ -> _ => destruct x eqn:Emore
    end; [|exact Hstop].
    intros [= <-]. destruct (IH (S pos) Emore) as (k & Hk & Hall & Hrest).
    exists (S k). split; [lia|]. simpl. rewrite Ec, Hall.
    split; [reflexivity|]. now rewrite Nat.add_succ_r.
Qed.

(** A literal matches itself. *)
Lemma match_here_lit (eqb : A -> A -> bool) (l : list A) (re : Re.pattern A)
      (s : list A) (pos : nat) r :
  (forall a b, eqb a b = true -> a = b) ->
  Re.match_here (lit eqb l ++ re)%list s pos = Some r ->
  exists s', s = (l ++ s')%list /\ Re.match_here re s' (pos + length l) = Some r.
Proof.
  intros Heq. revert s pos. induction l as [|a l IH]; intros s pos.
  - simpl. intros H. exists s. now rewrite Nat.add_0_r.
  - change (lit eqb (a :: l) ++ re)%list with (Re.One (eqb a) :: (lit eqb l ++ re)%list).
    intros H. apply match_here_one in H. destruct H as (c & s1 & -> & Hc & H).
    apply Heq in Hc. subst c. destruct (IH _ _ H) as (s' & -> & H').
    exists s'. split; [reflexivity|]. simpl. now rewrite Nat.add_succ_r.
Qed.


End MatcherFacts.





Lemma N_eqb_eq' (a b : N) : (a =? b)%N = true -> a = b.
Proof. apply N.eqb_eq. Qed.

(** What a match of the pattern of [get_frame] looks like: two groups,
    each a run of digits. *)
Lemma video_match (RT : PyRuntime) (t : text) (m : Re.match_obj N) :
  Re.match_at (video_re RT) t = Some m ->
  exists gw gh : text,
    Re.groups m = [gw; gh] /\
    forallb (str_digit RT) gw = true /\
    forallb (str_digit RT) gh = true.
Proof.
  unfold Re.match_at.
  destruct (Re.match_here (video_re RT) t 0) as [[e ms]|] eqn:E; [|discriminate].
  intros [= <-]. unfold video_re, str_lit in E.
  apply (match_here_lit N.eqb) in E; [|exact N_eqb_eq'].
  destruct E as (s1 & -> & E). cbn [app] in E.
  apply match_here_star in E. destruct E as (k1 & Hk1 & _ & E).
  apply (match_here_lit N.eqb) in E; [|exact N_eqb_eq'].
  destruct E as (s2 & Hs2 & E). cbn [app] in E.
  apply match_here_mark in E. destruct E as (ms1 & -> & E).
  apply match_here_star in E. destruct E as (k2 & Hk2 & Hall2 & E).
  apply match_here_mark in E. destruct E as (ms2 & -> & E).
  apply (match_here_lit N.eqb) in E; [|exact N_eqb_eq'].
  destruct E as (s3 & Hs3 & E). cbn [app] in E.
  apply match_here_mark in E. destruct E as (ms3 & -> & E).
  apply match_here_star in E. destruct E as (k3 & Hk3 & Hall3 & E).
  apply match_here_mark in E. destruct E as (ms4 & -> & E).
  rewrite <- (app_nil_r (lit N.eqb (text_of_string ","))) in E.
  apply (match_here_lit N.eqb) in E; [|exact N_eqb_eq'].
  destruct E as (s4 & Hs4 & E). simpl in E. injection E as <- <-.
  exists (take k2 s2), (take k3 s3). split; [|now split].
  cbn [Re.groups Re.groups_of]. unfold Re.slice.
  change (length (text_of_string "Video:")) with 6%nat.
  change (length (text_of_string ", ")) with 2%nat.
  change (length (text_of_string "x")) with 1%nat.
  assert (drop (0 + 6 + k1 + 2) (text_of_string "Video:" ++ s1) = s2) as Hd2.
  { replace (0 + 6 + k1 + 2)%nat with (6 + (k1 + 2))%nat by lia.
    rewrite drop_app_add' by reflexivity.
    rewrite <- drop_drop, Hs2. reflexivity. }
  assert (drop (0 + 6 + k1 + 2 + k2 + 1) (text_of_string "Video:" ++ s1) = s3) as Hd3.
  { replace (0 + 6 + k1 + 2 + k2 + 1)%nat with ((0 + 6 + k1 + 2) + (k2 + 1))%nat by lia.
    rewrite <- drop_drop, Hd2, <- drop_drop, Hs3. reflexivity. }
  rewrite Hd2, Hd3.
  replace (0 + 6 + k1 + 2 + k2 - (0 + 6 + k1 + 2))%nat with k2 by lia.
  replace (0 + 6 + k1 + 2 + k2 + 1 + k3 - (0 + 6 + k1 + 2 + k2 + 1))%nat with k3 by lia.
  reflexivity.
Qed.

(** X15.  [get_frame] without one of the sizes, after a decoder run that
    succeeds.  A stderr that is not UTF-8 raises [UnicodeDecodeError]; a
    stderr in which the pattern is found nowhere raises [AttributeError],
    from the [groups] of [None]; otherwise the two groups are runs of
    digits, a run that [int] refuses (the empty one) raises [ValueError],
    and the frame is shaped by the two integers. *)
Theorem get_frame_missing_size
        (RT : PyRuntime) (exec : ffmpeg_cmd -> process)
        (file : string) (time : float RT) (height width : option Z) (w0 : World RT) :
  let p := exec (get_frame_cmd RT file time) in
  let r := fst (get_frame RT exec file time height width w0) in
  height = None \/ width = None ->
  returncode p = 0 ->
  match decode_utf8 (stderr p) with
  | inl _ => r = inl UnicodeDecodeError
  | inr t =>
      match Re.search (video_re RT) t with
      | None => r = inl AttributeError
      | Some m =>
          exists gw gh : text,
            Re.groups m = [gw; gh] /\
            forallb (str_digit RT) gw = true /\
            forallb (str_digit RT) gh = true /\
            r = match int_of_text RT gw, int_of_text RT gh with
                | Some w, Some h => reshape (frombuffer (stdout p)) [h; w; 3]
                | _, _ => inl ValueError
                end
      end
  end.
Proof.
  intros p r Hnone Hrc. subst r. rewrite get_frame_unfold. fold p.
  rewrite Hrc. cbn [fst Z.eqb].
  assert (effective_size RT height width (Some (stderr p))
          = parse_resolution RT (Some (stderr p))) as ->.
  { destruct Hnone as [-> | ->]; [reflexivity|]. destruct height; reflexivity. }
  unfold parse_resolution, as_bytes, of_option. cbn [rbind].
  unfold decode_utf8, of_option.
  destruct (utf8_decode _) as [t|]; cbn [rbind]; [|reflexivity].
  destruct (Re.search (video_re RT) t) as [m|] eqn:Es; cbn [rbind]; [|reflexivity].
  destruct (search_leftmost _ _ _ Es) as (k & Hk & _).
  destruct (video_match RT _ _ Hk) as (gw & gh & Hg & Hgw & Hgh).
  exists gw, gh. rewrite Hg. repeat split; try assumption.
  destruct (int_of_text RT gw) as [w|]; cbn [rbind]; [|reflexivity].
  destruct (int_of_text RT gh) as [h|]; reflexivity.
Qed.

Lemma get_frame_missing_size_witness :
  fst (get_frame Examples.RT Examples.blank "a.mp4" Examples.zero None None Examples.w0)
  = inl AttributeError.
Proof.
  exact (get_frame_missing_size Examples.RT Examples.blank "a.mp4" Examples.zero
           None None Examples.w0 (or_introl eq_refl) eq_refl).
Defined.

(** ** [CatVideo.__init__] and the order of the streams *)

Lemma first_video_skip (before rest : list json) :
  Forall (fun s => exists c, subscript s "codec_type" = inr c /\ is_str c "video" = false)
         before ->
  first_video (before ++ rest) = first_video rest.
Proof.
  induction 1 as [|s before (c & Hc & Hv) _ IH]; [reflexivity|].
  simpl. rewrite Hc. simpl. now rewrite Hv.
Qed.

(** X16.  The first video stream decides.  Streams of other kinds before it
    are passed over and whatever follows it is not looked at: [__init__]
    does what it does for a probe with that stream alone. *)
Theorem init_first_video_stream
        (RT : PyRuntime) (probe_of : string -> option json)
        (file : string) (vsync : Z) (loglevel : string) (w0 : World RT)
        (m : gmap string json) (before after : list json) (st c : json) :
  probe_of file = Some (JObj m) ->
  m !! "streams" = Some (JArr (before ++ st :: after)) ->
  Forall (fun s => exists c, subscript s "codec_type" = inr c /\ is_str c "video" = false)
         before ->
  subscript st "codec_type" = inr c ->
  is_str c "video" = true ->
  init RT probe_of file vsync loglevel w0
  = init RT (fun _ => Some (JObj (<["streams" := JArr [st]]> ∅))) file vsync loglevel w0.
Proof.
  intros Hpr Hm Hbefore Hc Hv.
  assert (find_video_stream (JObj m) = inr (Some st)) as H1.
  { unfold find_video_stream. simpl. rewrite Hm. simpl.
    rewrite (first_video_skip before (st :: after) Hbefore).
    simpl. rewrite Hc. simpl. now rewrite Hv. }
  assert (find_video_stream (JObj (<["streams" := JArr [st]]> ∅)) = inr (Some st)) as H2.
  { unfold find_video_stream. simpl. rewrite lookup_insert_eq. simpl.
    rewrite Hc. simpl. now rewrite Hv. }
  unfold init, mbind, probe, log, lift. simpl. rewrite Hpr. simpl.
  rewrite H1, H2. reflexivity.
Qed.

Lemma init_first_video_stream_witness :
  init Examples.RT Examples.probe_2x2 "a.mp4" 0 "error" Examples.w0
  = init Examples.RT
      (fun _ => Some (JObj (<["streams" :=
                              JArr [JObj (<["duration" := JStr (text_of_string "0.08")]>
                                            Examples.video_stream_2x2)]]> ∅)))
      "a.mp4" 0 "error" Examples.w0.
Proof.
  eapply (init_first_video_stream Examples.RT Examples.probe_2x2 "a.mp4" 0 "error"
            Examples.w0 _ [Examples.audio_stream] []).
  - reflexivity.
  - reflexivity.
  - constructor; [|constructor]. eexists. split; reflexivity.
  - reflexivity.
  - reflexivity.
Defined.

(** ** The OpenCV functions *)

Section OpenCVFacts.
Variable CV : Cv2.

Lemma read_all_until (k fuel : nat) (c : capture CV) :
  (forall j, (j < k)%nat -> fst (nth_read CV j c) = true) ->
  fst (nth_read CV k c) = false ->
  (k < fuel)%nat ->
  read_all CV fuel c = Some (map (fun j => snd (nth_read CV j c)) (seq 0 k)).
Proof.
  revert fuel c. induction k as [|k IH]; intros [|fuel] c Hok Hend Hfuel; try lia.
  - unfold nth_read in Hend. cbn [after_reads] in Hend. cbn [read_all].
    destruct (cv_read CV c) as [[playing frame] c']. cbn [fst] in Hend.
    now subst playing.
  - pose proof (Hok 0%nat ltac:(lia)) as H0. unfold nth_read in H0.
    cbn [after_reads] in H0. cbn [read_all].
    change (seq 0 (S k)) with (0%nat :: seq 1 k).
    rewrite <- seq_shift, map_cons, map_map.
    unfold nth_read at 1. cbn [after_reads].
    destruct (cv_read CV c) as [[playing frame] c'] eqn:Er.
    cbn [fst snd] in *. subst playing.
    rewrite (IH fuel c').
    + cbn [option_map]. f_equal. f_equal. apply map_ext. intros j.
      unfold nth_read. cbn [after_reads]. now rewrite Er.
    + intros j Hj. specialize (Hok (S j) ltac:(lia)).
      unfold nth_read in Hok |- *. cbn [after_reads] in Hok. now rewrite Er in Hok.
    + unfold nth_read in Hend |- *. cbn [after_reads] in Hend. now rewrite Er in Hend.
    + lia.
Qed.

Lemma read_all_playing (fuel : nat) (c : capture CV) :
  (forall j, (j < fuel)%nat -> fst (nth_read CV j c) = true) ->
  read_all CV fuel c = None.
Proof.
  revert c. induction fuel as [|fuel IH]; intros c Hok; [reflexivity|].
  pose proof (Hok 0%nat ltac:(lia)) as H0. unfold nth_read in H0.
  cbn [after_reads] in H0. cbn [read_all].
  destruct (cv_read CV c) as [[playing frame] c'] eqn:Er.
  cbn [fst] in H0. subst playing. rewrite IH; [reflexivity|].
  intros j Hj. specialize (Hok (S j) ltac:(lia)).
  unfold nth_read in Hok |- *. cbn [after_reads] in Hok. now rewrite Er in Hok.
Qed.

Lemma after_reads_grabs (n : nat) (c : capture CV) :
  (forall c, snd (cv_retrieve CV c) = c) ->
  (forall c, cv_read CV c
             = if fst (cv_grab CV c) then cv_retrieve CV (snd (cv_grab CV c))
               else ((false, None), snd (cv_grab CV c))) ->
  after_reads CV n c = grabs CV n c.
Proof.
  intros Hretr Hread. revert c. induction n as [|n IH]; intros c; [reflexivity|].
  cbn [after_reads grabs]. rewrite IH. f_equal.
  rewrite Hread. destruct (fst (cv_grab CV c)); [apply Hretr | reflexivity].
Qed.

End OpenCVFacts.

(** X17.  [get_all_frames_opencv] returns the frames read before the first
    read that fails, in order, and reads no further: when the read after
    [k] reads that succeed fails, the list has the [k] frames of these
    reads.  As long as every read succeeds the function does not
    return. *)
Theorem get_all_frames_opencv_until_failed_read
        (CV : Cv2) (file : string) (k fuel : nat) :
  let c0 := VideoCapture CV file in
  (forall j, (j < k)%nat -> fst (nth_read CV j c0) = true) ->
  (fst (nth_read CV k c0) = false ->
   (k < fuel)%nat ->
   get_all_frames_opencv CV fuel file
   = Some (map (fun j => snd (nth_read CV j c0)) (seq 0 k)))
  /\
  ((fuel <= k)%nat -> get_all_frames_opencv CV fuel file = None).
Proof.
  intros c0 Hok. split.
  - intros Hend Hfuel. exact (read_all_until CV k fuel c0 Hok Hend Hfuel).
  - intros Hfuel. apply read_all_playing. intros j Hj. apply Hok. lia.
Qed.

Lemma get_all_frames_opencv_until_failed_read_witness :
  get_all_frames_opencv (Examples.list_capture [7; 8; 9]%nat) 5 "a.mp4"
  = Some [Some 7; Some 8; Some 9]%nat.
Proof.
  refine (proj1 (get_all_frames_opencv_until_failed_read
                   (Examples.list_capture [7; 8; 9]%nat) "a.mp4" 3 5 _) eq_refl _).
  - intros [|[|[|j]]] Hj; try reflexivity. lia.
  - lia.
Defined.

(** X18.  The frame number of [get_frame_opencv] counts from one.  For a
    capture whose [read] is a [grab] followed, when it succeeds, by a
    [retrieve], and whose [retrieve] leaves the capture where it is:
    when the read after [n] reads succeeds, its answer, which is what
    [get_all_frames_opencv] has at position [n], is what
    [get_frame_opencv] returns for the frame number [n + 1].  For a frame
    number of zero or less nothing is grabbed before the [retrieve]. *)
Theorem get_frame_opencv_counts_from_one
        (CV : Cv2) (filename : string) (n : nat) (frame_number : Z) :
  let c0 := VideoCapture CV filename in
  (forall c, snd (cv_retrieve CV c) = c) ->
  (forall c, cv_read CV c
             = if fst (cv_grab CV c) then cv_retrieve CV (snd (cv_grab CV c))
               else ((false, None), snd (cv_grab CV c))) ->
  (fst (nth_read CV n c0) = true ->
   get_frame_opencv CV filename (Z.of_nat n + 1) = nth_read CV n c0)
  /\
  (frame_number <= 0 ->
   get_frame_opencv CV filename frame_number = fst (cv_retrieve CV c0)).
Proof.
  intros c0 Hretr Hread. split.
  - unfold nth_read, get_frame_opencv. fold c0.
    rewrite (after_reads_grabs CV n c0 Hretr Hread).
    replace (Z.to_nat (Z.of_nat n + 1)) with (S n) by lia.
    assert (forall m c, grabs CV (S m) c = snd (cv_grab CV (grabs CV m c))) as Hlast.
    { induction m as [|m IH]; intros c; [reflexivity|].
      change (grabs CV (S (S m)) c) with (grabs CV (S m) (snd (cv_grab CV c))).
      now rewrite IH. }
    rewrite Hlast, Hread.
    destruct (fst (cv_grab CV (grabs CV n c0))); [reflexivity|].
    cbn [fst]. discriminate.
  - intros Hle. unfold get_frame_opencv. fold c0.
    replace (Z.to_nat frame_number) with 0%nat by lia. reflexivity.
Qed.

Lemma get_frame_opencv_counts_from_one_witness :
  get_frame_opencv (Examples.list_capture [7; 8; 9]%nat) "a.mp4" (Z.of_nat 1 + 1)
  = (true, Some 8%nat).
Proof.
  refine (proj1 (get_frame_opencv_counts_from_one
                   (Examples.list_capture [7; 8; 9]%nat) "a.mp4" 1 0 _ _) eq_refl).
  - intros c. reflexivity.
  - intros [cur [|x rest]]; reflexivity.
Defined.
